(** * React-CPP watchers: Timer, WriteWatcher and Synchronizer

    A shallow embedding of [include/timer.h], [include/watchers/write.h] and
    [include/synchronizer.h].  Every member function becomes a computation in
    a small state monad over a world that holds the event loop the watcher
    points to and the watcher object itself.  The event loop keeps a trace of
    the libev calls it receives, oldest first, so that statements about what
    is (or is not) registered with the multiplexer can be read off it. *)

From Stdlib Require Import Bool List ZArith Lia.
From Stdlib Require Import Floats.PrimFloat.
Import ListNotations.

(** ** Time stamps

    [Timestamp] is declared outside the files at hand; the code only adds,
    subtracts and compares time stamps and writes the literal [0.0].  These
    operations are taken as parameters; no law is assumed about them, a law
    that a statement needs is a hypothesis of that statement. *)

Class Clock (Timestamp : Type) : Type := {
  tadd : Timestamp -> Timestamp -> Timestamp;
  tsub : Timestamp -> Timestamp -> Timestamp;
  tlt : Timestamp -> Timestamp -> bool;
  tle : Timestamp -> Timestamp -> bool;
  tzero : Timestamp
}.

(** ** The event loop as the watchers see it *)

(** Calls that reach the loop, plus a marker for each run of a user
    callback.  A start call carries what libev reads from the watcher
    structure at that moment. *)
Inductive event (Timestamp : Type) : Type :=
| EvTimerStart (after repeat : Timestamp)
| EvTimerStop
| EvIoStart (fd : Z)
| EvIoStop (fd : Z)
| EvAsyncStart
| EvAsyncStop
| EvAsyncSend
| UserCallback.

Arguments EvTimerStart {Timestamp} after repeat.
Arguments EvTimerStop {Timestamp}.
Arguments EvIoStart {Timestamp} fd.
Arguments EvIoStop {Timestamp} fd.
Arguments EvAsyncStart {Timestamp}.
Arguments EvAsyncStop {Timestamp}.
Arguments EvAsyncSend {Timestamp}.
Arguments UserCallback {Timestamp}.

(** Modelled from the spec: [Loop] is declared outside the files at hand.
    The spec gives it a cached notion of the current time, valid for one
    dispatch cycle, and a handle to the multiplexer, kept here as the trace
    of calls made through that handle. *)
Record Loop (Timestamp : Type) : Type := {
  ev_now : Timestamp;
  trace : list (event Timestamp)
}.

Arguments ev_now {Timestamp} l.
Arguments trace {Timestamp} l.

Definition record {Timestamp : Type} (e : event Timestamp) (l : Loop Timestamp)
  : Loop Timestamp :=
  {| ev_now := ev_now l; trace := trace l ++ [e] |}.

(** Number of user callback runs in a trace. *)
Fixpoint fired {Timestamp : Type} (evs : list (event Timestamp)) : nat :=
  match evs with
  | [] => 0
  | UserCallback :: evs' => S (fired evs')
  | _ :: evs' => fired evs'
  end.

(** Replays the start and stop calls of a trace against a registration
    flag: a start must meet an unregistered watcher and registers it, a stop
    must meet a registered watcher and deregisters it.  [None] when a call
    meets the watcher in the state it was to establish. *)
Fixpoint replay {Timestamp : Type} (registered : bool)
  (evs : list (event Timestamp)) : option bool :=
  match evs with
  | [] => Some registered
  | EvTimerStart _ _ :: evs' | EvIoStart _ :: evs' =>
      if registered then None else replay true evs'
  | EvTimerStop :: evs' | EvIoStop _ :: evs' =>
      if registered then replay false evs' else None
  | _ :: evs' => replay registered evs'
  end.

(** Number of start calls, and of stop calls, in a trace. *)
Fixpoint starts {Timestamp : Type} (evs : list (event Timestamp)) : nat :=
  match evs with
  | [] => 0
  | EvTimerStart _ _ :: evs' | EvIoStart _ :: evs' => S (starts evs')
  | _ :: evs' => starts evs'
  end.

Fixpoint stops {Timestamp : Type} (evs : list (event Timestamp)) : nat :=
  match evs with
  | [] => 0
  | EvTimerStop :: evs' | EvIoStop _ :: evs' => S (stops evs')
  | _ :: evs' => stops evs'
  end.

(** Every call in the trace that names a descriptor names [d]. *)
Fixpoint only_fd {Timestamp : Type} (d : Z) (evs : list (event Timestamp))
  : bool :=
  match evs with
  | [] => true
  | EvIoStart d' :: evs' | EvIoStop d' :: evs' => Z.eqb d' d && only_fd d evs'
  | _ :: evs' => only_fd d evs'
  end.

(** Number of wake-ups in a trace. *)
Fixpoint sends {Timestamp : Type} (evs : list (event Timestamp)) : nat :=
  match evs with
  | [] => 0
  | EvAsyncSend :: evs' => S (sends evs')
  | _ :: evs' => sends evs'
  end.

(** ** State monad *)

Definition M (St A : Type) : Type := St -> A * St.

Definition ret {St A : Type} (a : A) : M St A := fun s => (a, s).

Definition bind {St A B : Type} (m : M St A) (f : A -> M St B) : M St B :=
  fun s => let (a, s') := m s in f a s'.

Declare Scope monad_scope.
Delimit Scope monad_scope with monad.
Notation "x <- m ;; k" := (bind m (fun x => k))
  (at level 61, m at next level, right associativity) : monad_scope.
Notation "m ;; k" := (bind m (fun _ => k))
  (at level 61, right associativity) : monad_scope.
Local Open Scope monad_scope.

(** ** Timer (include/timer.h) *)

Module Timer.
Section WithClock.
Context {Timestamp : Type} {clock : Clock Timestamp}.

(** libev's [struct ev_timer], reduced to what the class uses: whether the
    watcher is started, and the relative deadline and repeat value stored by
    [ev_timer_set]. *)
Record ev_timer : Type := {
  active : bool;
  at_ : Timestamp;
  repeat_ : Timestamp
}.

(** The user callback receives a pointer to the timer, whose fields are
    private: all it can do to the timer is call its public member functions
    and branch on what they return. *)
Inductive TimerCallback : Type :=
| Done
| CallStart (k : bool -> TimerCallback)
| CallCancel (k : bool -> TimerCallback)
| CallSet (timeout : Timestamp) (k : bool -> TimerCallback).

Record Timer : Type := {
  _watcher : ev_timer;
  _callback : TimerCallback;
  _active : bool;
  _expire : Timestamp
}.

(** The timer together with the loop its [_loop] field points to. *)
Record World : Type := {
  _loop : Loop Timestamp;
  this : Timer
}.

Definition get_active : M World bool := fun w => (_active (this w), w).
Definition get_expire : M World Timestamp := fun w => (_expire (this w), w).
Definition get_callback : M World TimerCallback :=
  fun w => (_callback (this w), w).

Definition set_active (b : bool) : M World unit := fun w =>
  (tt, {| _loop := _loop w;
          this := {| _watcher := _watcher (this w);
                     _callback := _callback (this w);
                     _active := b;
                     _expire := _expire (this w) |} |}).

Definition set_expire (e : Timestamp) : M World unit := fun w =>
  (tt, {| _loop := _loop w;
          this := {| _watcher := _watcher (this w);
                     _callback := _callback (this w);
                     _active := _active (this w);
                     _expire := e |} |}).

Definition set_watcher (ev : ev_timer) : M World unit := fun w =>
  (tt, {| _loop := _loop w;
          this := {| _watcher := ev;
                     _callback := _callback (this w);
                     _active := _active (this w);
                     _expire := _expire (this w) |} |}).

Definition emit (e : event Timestamp) : M World unit := fun w =>
  (tt, {| _loop := record e (_loop w); this := this w |}).

(** [_loop->now()] *)
Definition now : M World Timestamp := fun w => (ev_now (_loop w), w).

(** libev, as far as the class relies on it. *)
Definition ev_timer_init (after repeat : Timestamp) : M World unit :=
  set_watcher {| active := false; at_ := after; repeat_ := repeat |}.

Definition ev_timer_set (after repeat : Timestamp) : M World unit := fun w =>
  set_watcher {| active := active (_watcher (this w));
                 at_ := after; repeat_ := repeat |} w.

Definition ev_timer_start : M World unit := fun w =>
  let ev := _watcher (this w) in
  (emit (EvTimerStart (at_ ev) (repeat_ ev)) ;;
   set_watcher {| active := true; at_ := at_ ev; repeat_ := repeat_ ev |}) w.

Definition ev_timer_stop : M World unit := fun w =>
  let ev := _watcher (this w) in
  (emit EvTimerStop ;;
   set_watcher {| active := false; at_ := at_ ev; repeat_ := repeat_ ev |}) w.

(** [virtual bool start()] *)
Definition start : M World bool :=
  a <- get_active ;;
  if a then ret false
  else
    ev_timer_start ;;
    set_active true ;;
    ret true.

(** [virtual bool cancel()] *)
Definition cancel : M World bool :=
  a <- get_active ;;
  if negb a then ret false
  else
    ev_timer_stop ;;
    set_active false ;;
    ret true.

(** [bool set(Timestamp timeout)] *)
Definition set (timeout : Timestamp) : M World bool :=
  a <- get_active ;;
  n <- now ;;
  e <- get_expire ;;
  if a && tlt (tadd n timeout) e then
    n' <- now ;;
    set_expire (tadd n' timeout) ;;
    ret true
  else
    cancel ;;
    ev_timer_set timeout tzero ;;
    n' <- now ;;
    set_expire (tadd n' timeout) ;;
    start.

(** [_callback(this)]: the callback's calls are run against the timer. *)
Fixpoint run (c : TimerCallback) : M World unit :=
  match c with
  | Done => ret tt
  | CallStart k => fun w => let (b, w') := start w in run (k b) w'
  | CallCancel k => fun w => let (b, w') := cancel w in run (k b) w'
  | CallSet timeout k => fun w => let (b, w') := set timeout w in run (k b) w'
  end.

Definition call_callback : M World unit :=
  c <- get_callback ;;
  emit UserCallback ;;
  run c.

(** [virtual void invoke() override] *)
Definition invoke : M World unit :=
  e <- get_expire ;;
  n <- now ;;
  if tle e n then
    set_active false ;;
    call_callback
  else
    e' <- get_expire ;;
    n' <- now ;;
    set (tsub e' n') ;;
    ret tt.

(** Modelled from the spec: [Timer::initialize] is declared in the class
    and defined outside the files at hand.  The spec has construction arm
    the timer for a relative timeout and has [expire] absolute; the sibling
    [Reader::initialize] hands its argument to libev's init macro.  So the
    watcher structure is initialised, not started, with the timeout and no
    repeat, and the absolute expire time is recorded. *)
Definition initialize (timeout : Timestamp) : M World unit :=
  ev_timer_init timeout tzero ;;
  n <- now ;;
  set_expire (tadd n timeout).

(** [Timer(Loop *loop, Timestamp timeout, const TimerCallback &callback)],
    for a given body [init] of [initialize].  [_active] has the default
    member initialiser [false]; [raw] stands for the indeterminate contents
    of [_watcher] and [_expire] before [initialize] writes them. *)
Definition construct_with (init : Timestamp -> M World unit)
  (loop : Loop Timestamp) (timeout : Timestamp)
  (callback : TimerCallback) (raw : ev_timer * Timestamp) : World :=
  let w0 := {| _loop := loop;
               this := {| _watcher := fst raw;
                          _callback := callback;
                          _active := false;
                          _expire := snd raw |} |} in
  snd ((init timeout ;; start) w0).

Definition construct : Loop Timestamp -> Timestamp -> TimerCallback ->
  ev_timer * Timestamp -> World :=
  construct_with initialize.

(** [virtual ~Timer()] *)
Definition destroy : M World unit :=
  cancel ;;
  ret tt.

(** Modelled from the spec: the multiplexer's side of a physical fire, which
    is outside the files at hand.  A deadline registered without repeat is
    reported at most once: the multiplexer drops the registration and hands
    control to the watcher's [invoke]; a watcher that is not registered is
    not reported. *)
Definition expired : M World unit := fun w =>
  let ev := _watcher (this w) in
  if active ev then
    (set_watcher {| active := false; at_ := at_ ev; repeat_ := repeat_ ev |} ;;
     invoke) w
  else (tt, w).

(** The world in which the logical deadline alone has been replaced. *)
Definition with_expire (w : World) (e : Timestamp) : World :=
  {| _loop := _loop w;
     this := {| _watcher := _watcher (this w);
                _callback := _callback (this w);
                _active := _active (this w);
                _expire := e |} |}.

(** [w'] is reached from [w] by calls to the loop that ran no user callback
    and that pair up with the active flag: replayed from the flag's value in
    [w], every start meets a cleared flag, every stop a set flag, and the
    replay ends on the flag's value in [w']. *)
Definition tracks (w w' : World) : Prop :=
  exists evs,
    trace (_loop w') = trace (_loop w) ++ evs /\
    fired evs = 0 /\
    replay (_active (this w)) evs = Some (_active (this w')).

(** The world as the user callback finds it when [invoke] fires: the flag
    is cleared and the run of the callback is marked in the trace. *)
Definition at_fire (w : World) : World :=
  {| _loop := record UserCallback (_loop w);
     this := {| _watcher := _watcher (this w);
                _callback := _callback (this w);
                _active := false;
                _expire := _expire (this w) |} |}.

(** The states of the timer. *)
Inductive phase : Type := Idle | Armed.

Definition phase_of (w : World) : phase :=
  if _active (this w) then Armed else Idle.

(** The physical registration agrees with the active flag. *)
Definition consistent (w : World) : Prop :=
  active (_watcher (this w)) = _active (this w).

(** A callback that never calls [start] or [set]. *)
Fixpoint no_restart (c : TimerCallback) : bool :=
  match c with
  | Done => true
  | CallStart _ => false
  | CallCancel k => no_restart (k true) && no_restart (k false)
  | CallSet _ _ => false
  end.

(** Calls of [set] made one after the other, results dropped. *)
Fixpoint set_each (ts : list Timestamp) : M World unit :=
  match ts with
  | [] => ret tt
  | t :: ts' => fun w => let (_, w') := set t w in set_each ts' w'
  end.

(** At time [n] and with expire time [e] in force, each timeout of the list
    gives a deadline strictly before the one in force when its turn
    comes. *)
Fixpoint shortening (n e : Timestamp) (ts : list Timestamp) : bool :=
  match ts with
  | [] => true
  | t :: ts' => tlt (tadd n t) e && shortening n (tadd n t) ts'
  end.

(** A sequence of calls without [set]. *)
Fixpoint no_set (c : TimerCallback) : bool :=
  match c with
  | Done => true
  | CallStart k => no_set (k true) && no_set (k false)
  | CallCancel k => no_set (k true) && no_set (k false)
  | CallSet _ _ => false
  end.

(** A timer's life without a physical fire: construction, the calls [c] its
    owner makes, destruction. *)
Definition life (init : Timestamp -> M World unit) (loop : Loop Timestamp)
  (timeout : Timestamp) (callback : TimerCallback)
  (raw : ev_timer * Timestamp) (c : TimerCallback) : World :=
  snd (destroy (snd (run c (construct_with init loop timeout callback raw)))).

End WithClock.

Arguments ev_timer Timestamp : clear implicits.
Arguments TimerCallback Timestamp : clear implicits.
Arguments Timer Timestamp : clear implicits.
Arguments World Timestamp : clear implicits.

End Timer.

(** ** WriteWatcher (include/watchers/write.h) *)

Module WriteWatcher.
Section WithClock.
Context {Timestamp : Type}.

(** libev's [struct ev_io], reduced to what the class uses. *)
Record ev_io : Type := {
  active : bool;
  fd : Z
}.

(** The user callback receives a pointer to the watcher and can call its
    public member functions. *)
Inductive WriteCallback : Type :=
| Done
| CallCancel (k : bool -> WriteCallback)
| CallResume (k : bool -> WriteCallback).

Record WriteWatcher : Type := {
  _watcher : ev_io;
  _callback : WriteCallback;
  _active : bool
}.

Record World : Type := {
  _loop : Loop Timestamp;
  this : WriteWatcher
}.

Definition get_active : M World bool := fun w => (_active (this w), w).
Definition get_callback : M World WriteCallback :=
  fun w => (_callback (this w), w).

Definition set_active (b : bool) : M World unit := fun w =>
  (tt, {| _loop := _loop w;
          this := {| _watcher := _watcher (this w);
                     _callback := _callback (this w);
                     _active := b |} |}).

Definition set_watcher (ev : ev_io) : M World unit := fun w =>
  (tt, {| _loop := _loop w;
          this := {| _watcher := ev;
                     _callback := _callback (this w);
                     _active := _active (this w) |} |}).

Definition emit (e : event Timestamp) : M World unit := fun w =>
  (tt, {| _loop := record e (_loop w); this := this w |}).

(** libev, as far as the class relies on it. *)
Definition ev_io_init (d : Z) : M World unit :=
  set_watcher {| active := false; fd := d |}.

Definition ev_io_start : M World unit := fun w =>
  let ev := _watcher (this w) in
  (emit (EvIoStart (fd ev)) ;;
   set_watcher {| active := true; fd := fd ev |}) w.

Definition ev_io_stop : M World unit := fun w =>
  let ev := _watcher (this w) in
  (emit (EvIoStop (fd ev)) ;;
   set_watcher {| active := false; fd := fd ev |}) w.

(** [virtual bool cancel()] *)
Definition cancel : M World bool :=
  a <- get_active ;;
  if negb a then ret false
  else
    ev_io_stop ;;
    set_active false ;;
    ret true.

(** [virtual bool resume()] *)
Definition resume : M World bool :=
  a <- get_active ;;
  if a then ret false
  else
    ev_io_start ;;
    set_active true ;;
    ret true.

(** [_callback(this)] *)
Fixpoint run (c : WriteCallback) : M World unit :=
  match c with
  | Done => ret tt
  | CallCancel k => fun w => let (b, w') := cancel w in run (k b) w'
  | CallResume k => fun w => let (b, w') := resume w in run (k b) w'
  end.

(** [virtual void invoke() override] *)
Definition invoke : M World unit :=
  c <- get_callback ;;
  emit UserCallback ;;
  run c.

(** Modelled from the spec: [WriteWatcher::initialize] is declared in the
    class and defined outside the files at hand.  Its sibling
    [Reader::initialize] in src/reader.cpp hands the descriptor to libev's
    init macro, which leaves the watcher stopped. *)
Definition initialize (d : Z) : M World unit :=
  ev_io_init d.

(** [WriteWatcher(Loop *loop, int fd, const CALLBACK &callback)]; [raw] is
    the indeterminate content of [_watcher] before [initialize]. *)
Definition construct (loop : Loop Timestamp) (d : Z)
  (callback : WriteCallback) (raw : ev_io) : World :=
  let w0 := {| _loop := loop;
               this := {| _watcher := raw;
                          _callback := callback;
                          _active := false |} |} in
  snd ((initialize d ;; resume) w0).

(** [virtual ~WriteWatcher()] *)
Definition destroy : M World unit :=
  cancel ;;
  ret tt.

(** The physical registration agrees with the active flag. *)
Definition consistent (w : World) : Prop :=
  active (_watcher (this w)) = _active (this w).

(** As for the timer: the calls between [w] and [w'] ran no user callback
    and pair up with the active flag. *)
Definition tracks (w w' : World) : Prop :=
  exists evs,
    trace (_loop w') = trace (_loop w) ++ evs /\
    fired evs = 0 /\
    replay (_active (this w)) evs = Some (_active (this w')).

(** The world as the user callback finds it: the watcher object is the one
    [invoke] was entered with, the run of the callback is marked in the
    trace. *)
Definition at_invoke (w : World) : World :=
  {| _loop := record UserCallback (_loop w); this := this w |}.

(** From [w] to [w'] the descriptor and the callback are kept, and the loop
    has received calls that pair up with the active flag, name the
    watcher's descriptor only and include [n] runs of the user callback. *)
Definition steps (w w' : World) (n : nat) : Prop :=
  fd (_watcher (this w')) = fd (_watcher (this w))
  /\ _callback (this w') = _callback (this w)
  /\ exists evs,
       trace (_loop w') = trace (_loop w) ++ evs
       /\ replay (_active (this w)) evs = Some (_active (this w'))
       /\ only_fd (fd (_watcher (this w))) evs = true
       /\ fired evs = n.

(** The constructor for a given body [init] of [initialize]. *)
Definition construct_with (init : Z -> M World unit)
  (loop : Loop Timestamp) (d : Z)
  (callback : WriteCallback) (raw : ev_io) : World :=
  let w0 := {| _loop := loop;
               this := {| _watcher := raw;
                          _callback := callback;
                          _active := false |} |} in
  snd ((init d ;; resume) w0).

(** What happens to a watcher between construction and destruction: its
    owner makes calls on it, or the loop calls [invoke]. *)
Inductive action : Type :=
| Calls (c : WriteCallback)
| Invoke.

Fixpoint perform (acts : list action) : M World unit :=
  match acts with
  | [] => ret tt
  | Calls c :: acts' => fun w => let (_, w') := run c w in perform acts' w'
  | Invoke :: acts' => fun w => let (_, w') := invoke w in perform acts' w'
  end.

Fixpoint invokes (acts : list action) : nat :=
  match acts with
  | [] => 0
  | Calls _ :: acts' => invokes acts'
  | Invoke :: acts' => S (invokes acts')
  end.

(** A watcher's life: construction, what happens to it, destruction. *)
Definition life (init : Z -> M World unit) (loop : Loop Timestamp) (d : Z)
  (callback : WriteCallback) (raw : ev_io) (acts : list action) : World :=
  snd (destroy (snd (perform acts (construct_with init loop d callback raw)))).

End WithClock.

Arguments World Timestamp : clear implicits.

End WriteWatcher.

(** ** Synchronizer (include/synchronizer.h) *)

Module Synchronizer.
Section WithClock.
Context {Timestamp : Type}.

(** libev's [struct ev_async]: started or not, and whether a wake-up has
    been sent and not yet delivered. *)
Record ev_async : Type := {
  active : bool;
  sent : bool
}.

Inductive SynchronizeCallback : Type :=
| Done
| CallSynchronize (k : bool -> SynchronizeCallback)
| CallOperator (k : bool -> SynchronizeCallback).

Record Synchronizer : Type := {
  _watcher : ev_async;
  _callback : SynchronizeCallback
}.

Record World : Type := {
  _loop : Loop Timestamp;
  this : Synchronizer
}.

Definition set_watcher (ev : ev_async) : M World unit := fun w =>
  (tt, {| _loop := _loop w;
          this := {| _watcher := ev; _callback := _callback (this w) |} |}).

Definition emit (e : event Timestamp) : M World unit := fun w =>
  (tt, {| _loop := record e (_loop w); this := this w |}).

(** libev's wake-up: the request reaches the loop and is latched in the
    watcher until the loop delivers it. *)
Definition ev_async_send : M World unit := fun w =>
  (emit EvAsyncSend ;;
   set_watcher {| active := active (_watcher (this w)); sent := true |}) w.

Definition ev_async_init : M World unit :=
  set_watcher {| active := false; sent := false |}.

Definition ev_async_start : M World unit := fun w =>
  (emit EvAsyncStart ;;
   set_watcher {| active := true; sent := sent (_watcher (this w)) |}) w.

Definition ev_async_stop : M World unit := fun w =>
  (emit EvAsyncStop ;;
   set_watcher {| active := false; sent := false |}) w.

(** Modelled from the spec: [Synchronizer::initialize] is declared in the
    class and defined outside the files at hand; like its siblings it hands
    the watcher to libev's init macro. *)
Definition initialize : M World unit :=
  ev_async_init.

(** [Synchronizer(Loop *loop, const SynchronizeCallback &callback)] *)
Definition construct (loop : Loop Timestamp)
  (callback : SynchronizeCallback) (raw : ev_async) : World :=
  let w0 := {| _loop := loop;
               this := {| _watcher := raw; _callback := callback |} |} in
  snd ((initialize ;; ev_async_start) w0).

(** [virtual ~Synchronizer()] *)
Definition destroy : M World unit :=
  ev_async_stop.

(** [bool synchronize()] *)
Definition synchronize : M World bool :=
  ev_async_send ;;
  ret true.

(** [bool operator () ()] *)
Definition call_operator : M World bool :=
  synchronize.

(** [_callback(this)] *)
Fixpoint run (c : SynchronizeCallback) : M World unit :=
  match c with
  | Done => ret tt
  | CallSynchronize k =>
      fun w => let (b, w') := synchronize w in run (k b) w'
  | CallOperator k =>
      fun w => let (b, w') := call_operator w in run (k b) w'
  end.

(** [virtual void invoke() override] *)
Definition invoke : M World unit := fun w =>
  (emit UserCallback ;; run (_callback (this w))) w.

(** Number of calls a callback makes when every call returns true. *)
Fixpoint calls_made (c : SynchronizeCallback) : nat :=
  match c with
  | Done => 0
  | CallSynchronize k => S (calls_made (k true))
  | CallOperator k => S (calls_made (k true))
  end.

End WithClock.

Arguments World Timestamp : clear implicits.

End Synchronizer.

(** ** A concrete clock: integer ticks *)

#[export] Instance Z_clock : Clock Z := {
  tadd := Z.add;
  tsub := Z.sub;
  tlt := Z.ltb;
  tle := Z.leb;
  tzero := 0%Z
}.

(** A loop at tick 100 that has seen no call yet. *)
Definition loop100 : Loop Z := {| ev_now := 100%Z; trace := [] |}.

(** A callback that cancels the timer it is handed. *)
Definition cancelling : Timer.TimerCallback Z :=
  Timer.CallCancel (fun _ => Timer.Done).

(** A timer armed at tick 100 for 50 ticks. *)
Definition armed_timer : Timer.World Z :=
  Timer.construct loop100 50%Z cancelling
    ({| Timer.active := true; Timer.at_ := 7%Z; Timer.repeat_ := 7%Z |}, 7%Z).

(** The same timer after an explicit cancel. *)
Definition idle_timer : Timer.World Z := snd (Timer.cancel armed_timer).

(** The armed timer once the loop's clock has reached tick 150. *)
Definition due_timer : Timer.World Z :=
  {| Timer._loop := {| ev_now := 150%Z; trace := trace (Timer._loop armed_timer) |};
     Timer.this := Timer.this armed_timer |}.

(** The armed timer seen at tick 120, before its deadline. *)
Definition early_timer : Timer.World Z :=
  {| Timer._loop := {| ev_now := 120%Z; trace := trace (Timer._loop armed_timer) |};
     Timer.this := Timer.this armed_timer |}.

(** A write watcher on descriptor 4, whose callback does nothing. *)
Definition writer4 : WriteWatcher.World Z :=
  WriteWatcher.construct loop100 4%Z WriteWatcher.Done
    {| WriteWatcher.active := true; WriteWatcher.fd := 9%Z |}.

(** An owner who cancels the timer and, if that took effect, starts it
    again. *)
Definition restart : Timer.TimerCallback Z :=
  Timer.CallCancel (fun stopped =>
    if stopped then Timer.CallStart (fun _ => Timer.Done) else Timer.Done).

(** An owner who restarts the timer and then sets it to 80 ticks. *)
Definition restart_and_set : Timer.TimerCallback Z :=
  Timer.CallCancel (fun _ =>
    Timer.CallStart (fun _ => Timer.CallSet 80%Z (fun _ => Timer.Done))).

(** The descriptor is reported, the owner cancels and resumes the watcher,
    the descriptor is reported again. *)
Definition reported_twice : list WriteWatcher.action :=
  [WriteWatcher.Invoke;
   WriteWatcher.Calls
     (WriteWatcher.CallCancel (fun _ =>
        WriteWatcher.CallResume (fun _ => WriteWatcher.Done)));
   WriteWatcher.Invoke].

(** ** A second clock: IEEE 754 binary64

    libev's [ev_timer_set] takes its timeout as a binary64 number, and the
    class hands it time stamps and the literal [0.0]. *)

#[export] Instance binary64_clock : Clock float := {
  tadd := PrimFloat.add;
  tsub := PrimFloat.sub;
  tlt := PrimFloat.ltb;
  tle := PrimFloat.leb;
  tzero := 0%float
}.

(** A timer armed at 1.1 for 2.3 seconds, hence due at 3.4, as [invoke]
    finds it when the multiplexer reports it at 1.3: the flag is still set,
    the registration has been dropped. *)
Definition reported_early : Timer.World float :=
  {| Timer._loop :=
       {| ev_now := 0x1.4cccccccccccdp+0%float;
          trace := [EvTimerStart 0x1.2666666666666p+1%float 0%float] |};
     Timer.this :=
       {| Timer._watcher :=
            {| Timer.active := false;
               Timer.at_ := 0x1.2666666666666p+1%float;
               Timer.repeat_ := 0%float |};
          Timer._callback := Timer.Done;
          Timer._active := true;
          Timer._expire := 0x1.b333333333333p+1%float |} |}.

(** The loop at 1.1 seconds, before any call. *)
Definition loop_1_1 : Loop float :=
  {| ev_now := 0x1.199999999999ap+0%float; trace := [] |}.

(** A timer constructed at 1.1 for 2.3 seconds, seen when the loop's clock
    reads 1.3 and the multiplexer still holds the registration. *)
Definition built_early : Timer.World float :=
  let w := Timer.construct loop_1_1 0x1.2666666666666p+1%float Timer.Done
             ({| Timer.active := false; Timer.at_ := 0%float;
                 Timer.repeat_ := 0%float |}, 0%float) in
  {| Timer._loop := {| ev_now := 0x1.4cccccccccccdp+0%float;
                       trace := trace (Timer._loop w) |};
     Timer.this := Timer.this w |}.

(** * Properties *)

(** ** Traces *)

Section Traces.
Context {Timestamp : Type}.
Implicit Types evs : list (event Timestamp).

Lemma fired_app evs1 evs2 : fired (evs1 ++ evs2) = fired evs1 + fired evs2.
Proof.
  induction evs1 as [|e evs1 IH]; simpl; [reflexivity|].
  destruct e; simpl; rewrite IH; reflexivity.
Qed.

Lemma replay_app evs1 evs2 (r : bool) :
  replay r (evs1 ++ evs2) =
  match replay r evs1 with
  | Some r' => replay r' evs2
  | None => None
  end.
Proof.
  revert r; induction evs1 as [|e evs1 IH]; intro r; simpl; [reflexivity|].
  destruct e; destruct r; simpl; auto.
Qed.

End Traces.

(** ** Timer: the single operations *)

Section TimerFacts.
Context {Timestamp : Type} {clock : Clock Timestamp}.
Import Timer.
Implicit Types (w : World Timestamp) (c : TimerCallback Timestamp).

(** What [start] does, case by case. *)
Lemma start_active w :
  _active (this w) = true -> start w = (false, w).
Proof.
  destruct w as [l [ev cb a e]]; simpl; intros ->; reflexivity.
Qed.

Lemma start_idle w :
  _active (this w) = false ->
  start w =
    (true,
     {| _loop := record (EvTimerStart (at_ (_watcher (this w)))
                                      (repeat_ (_watcher (this w)))) (_loop w);
        this := {| _watcher := {| active := true;
                                  at_ := at_ (_watcher (this w));
                                  repeat_ := repeat_ (_watcher (this w)) |};
                   _callback := _callback (this w);
                   _active := true;
                   _expire := _expire (this w) |} |}).
Proof.
  destruct w as [l [ev cb a e]]; simpl; intros ->; reflexivity.
Qed.

Lemma cancel_idle w :
  _active (this w) = false -> cancel w = (false, w).
Proof.
  destruct w as [l [ev cb a e]]; simpl; intros ->; reflexivity.
Qed.

Lemma cancel_active w :
  _active (this w) = true ->
  cancel w =
    (true,
     {| _loop := record EvTimerStop (_loop w);
        this := {| _watcher := {| active := false;
                                  at_ := at_ (_watcher (this w));
                                  repeat_ := repeat_ (_watcher (this w)) |};
                   _callback := _callback (this w);
                   _active := false;
                   _expire := _expire (this w) |} |}).
Proof.
  destruct w as [l [ev cb a e]]; simpl; intros ->; reflexivity.
Qed.

Lemma set_fast w timeout :
  _active (this w) && tlt (tadd (ev_now (_loop w)) timeout) (_expire (this w))
    = true ->
  set timeout w = (true, with_expire w (tadd (ev_now (_loop w)) timeout)).
Proof.
  destruct w as [l [ev cb a e]]; unfold set, with_expire, bind; simpl.
  intros ->; reflexivity.
Qed.

Lemma set_slow w timeout :
  _active (this w) && tlt (tadd (ev_now (_loop w)) timeout) (_expire (this w))
    = false ->
  set timeout w =
    (true,
     {| _loop :=
          {| ev_now := ev_now (_loop w);
             trace := trace (_loop w)
                      ++ (if _active (this w) then [EvTimerStop] else [])
                      ++ [EvTimerStart timeout tzero] |};
        this := {| _watcher := {| active := true; at_ := timeout;
                                  repeat_ := tzero |};
                   _callback := _callback (this w);
                   _active := true;
                   _expire := tadd (ev_now (_loop w)) timeout |} |}).
Proof.
  destruct w as [[n tr] [ev cb a e]]; unfold set, bind; simpl.
  intros ->; destruct a; cbn; unfold record; cbn.
  - rewrite <- app_assoc; reflexivity.
  - reflexivity.
Qed.

(** Whatever the branch, [set] returns true and leaves the timer active
    with the new expire time. *)
Lemma set_arms w timeout :
  fst (set timeout w) = true
  /\ _active (this (snd (set timeout w))) = true
  /\ _expire (this (snd (set timeout w))) = tadd (ev_now (_loop w)) timeout.
Proof.
  destruct (_active (this w)
            && tlt (tadd (ev_now (_loop w)) timeout) (_expire (this w))) eqn:G.
  - rewrite (set_fast w timeout G); cbn.
    apply andb_prop in G; destruct G as [A _]; auto.
  - rewrite (set_slow w timeout G); cbn; auto.
Qed.

End TimerFacts.

(** ** Timer: sequences of public calls *)

Section TimerRuns.
Context {Timestamp : Type} {clock : Clock Timestamp}.
Import Timer.
Implicit Types (w : World Timestamp) (c : TimerCallback Timestamp).

Lemma tracks_refl w : tracks w w.
Proof.
  exists []; rewrite app_nil_r; split; [|split]; reflexivity.
Qed.

Lemma tracks_trans w1 w2 w3 : tracks w1 w2 -> tracks w2 w3 -> tracks w1 w3.
Proof.
  intros (evs1 & T1 & F1 & R1) (evs2 & T2 & F2 & R2).
  exists (evs1 ++ evs2); split; [|split].
  - rewrite T2, T1, app_assoc; reflexivity.
  - rewrite fired_app, F1, F2; reflexivity.
  - rewrite replay_app, R1; exact R2.
Qed.

Lemma start_tracks w : tracks w (snd (start w)).
Proof.
  destruct (_active (this w)) eqn:A.
  - rewrite (start_active w A); apply tracks_refl.
  - rewrite (start_idle w A); cbn.
    eexists; split; [reflexivity|]; rewrite A; split; reflexivity.
Qed.

Lemma cancel_tracks w : tracks w (snd (cancel w)).
Proof.
  destruct (_active (this w)) eqn:A.
  - rewrite (cancel_active w A); cbn.
    eexists; split; [reflexivity|]; rewrite A; split; reflexivity.
  - rewrite (cancel_idle w A); apply tracks_refl.
Qed.

Lemma set_tracks w timeout : tracks w (snd (set timeout w)).
Proof.
  destruct (_active (this w)
            && tlt (tadd (ev_now (_loop w)) timeout) (_expire (this w))) eqn:G.
  - rewrite (set_fast w timeout G); cbn.
    exists []; rewrite app_nil_r; split; [|split]; reflexivity.
  - rewrite (set_slow w timeout G); cbn.
    eexists; split; [reflexivity|].
    destruct (_active (this w)); split; reflexivity.
Qed.

Lemma start_consistent w : consistent w -> consistent (snd (start w)).
Proof.
  unfold consistent; intro C; destruct (_active (this w)) eqn:A.
  - rewrite (start_active w A); cbn; congruence.
  - rewrite (start_idle w A); reflexivity.
Qed.

Lemma cancel_consistent w : consistent w -> consistent (snd (cancel w)).
Proof.
  unfold consistent; intro C; destruct (_active (this w)) eqn:A.
  - rewrite (cancel_active w A); reflexivity.
  - rewrite (cancel_idle w A); cbn; congruence.
Qed.

Lemma set_consistent w timeout :
  consistent w -> consistent (snd (set timeout w)).
Proof.
  unfold consistent; intro C.
  destruct (_active (this w)
            && tlt (tadd (ev_now (_loop w)) timeout) (_expire (this w))) eqn:G.
  - rewrite (set_fast w timeout G); exact C.
  - rewrite (set_slow w timeout G); reflexivity.
Qed.

Lemma run_start k w :
  run (CallStart k) w = run (k (fst (start w))) (snd (start w)).
Proof.
  change (run (CallStart k) w) with (let (b, w') := start w in run (k b) w').
  destruct (start w); reflexivity.
Qed.

Lemma run_cancel k w :
  run (CallCancel k) w = run (k (fst (cancel w))) (snd (cancel w)).
Proof.
  change (run (CallCancel k) w) with (let (b, w') := cancel w in run (k b) w').
  destruct (cancel w); reflexivity.
Qed.

Lemma run_set timeout k w :
  run (CallSet timeout k) w =
  run (k (fst (set timeout w))) (snd (set timeout w)).
Proof.
  change (run (CallSet timeout k) w)
    with (let (b, w') := set timeout w in run (k b) w').
  destruct (set timeout w); reflexivity.
Qed.

Lemma run_tracks c : forall w, tracks w (snd (run c w)).
Proof.
  induction c as [|k IH|k IH|timeout k IH]; intro w.
  - apply tracks_refl.
  - rewrite run_start.
    exact (tracks_trans _ _ _ (start_tracks w) (IH _ _)).
  - rewrite run_cancel.
    exact (tracks_trans _ _ _ (cancel_tracks w) (IH _ _)).
  - rewrite run_set.
    exact (tracks_trans _ _ _ (set_tracks w timeout) (IH _ _)).
Qed.

Lemma run_consistent c : forall w, consistent w -> consistent (snd (run c w)).
Proof.
  induction c as [|k IH|k IH|timeout k IH]; intros w C.
  - exact C.
  - rewrite run_start; apply IH, start_consistent, C.
  - rewrite run_cancel; apply IH, cancel_consistent, C.
  - rewrite run_set; apply IH, set_consistent, C.
Qed.

(** A callback that does not restart an idle timer leaves it as it is. *)
Lemma run_no_restart c :
  no_restart c = true ->
  forall w, _active (this w) = false -> run c w = (tt, w).
Proof.
  induction c as [|k IH|k IH|timeout k IH]; cbn [no_restart]; intros N w A;
    try discriminate.
  - reflexivity.
  - apply andb_prop in N; destruct N as [_ N].
    rewrite run_cancel, (cancel_idle w A); apply IH; [exact N | exact A].
Qed.

End TimerRuns.

(** ** Timer: the claims *)

Section TimerClaims.
Context {Timestamp : Type} {clock : Clock Timestamp}.
Import Timer.
Implicit Types (w : World Timestamp) (c : TimerCallback Timestamp).

Lemma invoke_due w :
  tle (_expire (this w)) (ev_now (_loop w)) = true ->
  invoke w = run (_callback (this w)) (at_fire w).
Proof.
  destruct w as [l [ev cb a e]]; unfold invoke, bind; cbn.
  intros ->; reflexivity.
Qed.

Lemma invoke_early w :
  tle (_expire (this w)) (ev_now (_loop w)) = false ->
  invoke w =
    (tt, snd (set (tsub (_expire (this w)) (ev_now (_loop w))) w)).
Proof.
  intro E; unfold invoke, bind, get_expire, now; rewrite E.
  destruct (set _ w); reflexivity.
Qed.

Lemma fired_tracks w w' :
  tracks w w' -> fired (trace (_loop w')) = fired (trace (_loop w)).
Proof.
  intros (evs & T & F & _); rewrite T, fired_app, F; lia.
Qed.

(** C1: on an armed timer, a timeout whose deadline [now() + timeout] lies
    strictly before the scheduled expire time makes [set] return true and
    replace the expire field by [now() + timeout]; the loop receives no
    call, and the libev watcher, the callback and the active flag stay as
    they were. *)
Theorem Timer_set_earlier_updates_expire_only w (timeout : Timestamp) :
  _active (this w) = true ->
  tlt (tadd (ev_now (_loop w)) timeout) (_expire (this w)) = true ->
  let w' := snd (set timeout w) in
  fst (set timeout w) = true
  /\ _expire (this w') = tadd (ev_now (_loop w)) timeout
  /\ _loop w' = _loop w
  /\ _watcher (this w') = _watcher (this w)
  /\ _active (this w') = _active (this w)
  /\ _callback (this w') = _callback (this w).
Proof.
  intros A L; cbv zeta.
  rewrite (set_fast w timeout) by (rewrite A, L; reflexivity).
  repeat split.
Qed.

(** C5: when the timer is idle, or the deadline [now() + timeout] is not
    strictly before the scheduled expire time, [set] stops the watcher if
    the timer was active, stores the timeout in it, starts it with that
    timeout and no repeat, sets expire to [now() + timeout], leaves the
    timer active and returns true.  If registration and flag agreed before,
    the stop found a registered watcher and the start an unregistered
    one. *)
Theorem Timer_set_otherwise_rearms w (timeout : Timestamp) :
  _active (this w) && tlt (tadd (ev_now (_loop w)) timeout) (_expire (this w))
    = false ->
  let w' := snd (set timeout w) in
  let calls := (if _active (this w) then [EvTimerStop] else [])
               ++ [EvTimerStart timeout tzero] in
  fst (set timeout w) = true
  /\ trace (_loop w') = trace (_loop w) ++ calls
  /\ ev_now (_loop w') = ev_now (_loop w)
  /\ _watcher (this w') =
       {| active := true; at_ := timeout; repeat_ := tzero |}
  /\ _expire (this w') = tadd (ev_now (_loop w)) timeout
  /\ _active (this w') = true
  /\ (consistent w ->
      replay (active (_watcher (this w))) calls = Some true).
Proof.
  intros G; cbv zeta.
  rewrite (set_slow w timeout G); cbn.
  repeat split.
  unfold consistent; intros ->; destruct (_active (this w)); reflexivity.
Qed.

(** C9: in every state and for every timeout, [set] returns true and leaves
    the timer active with expire equal to [now() + timeout].  The timer is
    armed with the loop as well: if the libev watcher was started exactly
    when the flag was set, it is started afterwards; and on an idle timer
    the loop receives the start call for the given timeout, whatever the
    expire time was. *)
Theorem Timer_set_always_arms w (timeout : Timestamp) :
  fst (set timeout w) = true
  /\ _active (this (snd (set timeout w))) = true
  /\ _expire (this (snd (set timeout w))) = tadd (ev_now (_loop w)) timeout
  /\ (consistent w ->
      consistent (snd (set timeout w))
      /\ active (_watcher (this (snd (set timeout w)))) = true)
  /\ (_active (this w) = false ->
      trace (_loop (snd (set timeout w))) =
        trace (_loop w) ++ [EvTimerStart timeout tzero]
      /\ _watcher (this (snd (set timeout w))) =
           {| active := true; at_ := timeout; repeat_ := tzero |}).
Proof.
  destruct (set_arms w timeout) as (R & A & E).
  split; [exact R|]. split; [exact A|]. split; [exact E|]. split.
  - intro C; pose proof (set_consistent w timeout C) as C'.
    split; [exact C'|]. unfold consistent in C'; rewrite C'; exact A.
  - intro I.
    rewrite (set_slow w timeout) by (rewrite I; reflexivity).
    cbn; rewrite I; split; reflexivity.
Qed.

(** X12: [invoke] runs the user callback exactly when [expire <= now()].
    Otherwise it runs no callback and does what [set (expire - now())]
    does: the timer ends active with expire [now() + (expire - now())];
    and unless [set] finds an active timer and that sum strictly below the
    old expire time, which exact arithmetic excludes, the watcher is stopped
    if the timer was active and started again with the timeout
    [expire - now()]. *)
Theorem Timer_invoke_fires_or_rearms w :
  let e := _expire (this w) in
  let n := ev_now (_loop w) in
  let w' := snd (invoke w) in
  (fired (trace (_loop w')) = S (fired (trace (_loop w))) <-> tle e n = true)
  /\ (tle e n = false ->
      fired (trace (_loop w')) = fired (trace (_loop w))
      /\ w' = snd (set (tsub e n) w)
      /\ _active (this w') = true
      /\ _expire (this w') = tadd n (tsub e n)
      /\ (_active (this w) && tlt (tadd n (tsub e n)) e = false ->
          trace (_loop w') =
            trace (_loop w)
            ++ (if _active (this w) then [EvTimerStop] else [])
            ++ [EvTimerStart (tsub e n) tzero]
          /\ _watcher (this w') =
               {| active := true; at_ := tsub e n; repeat_ := tzero |})).
Proof.
  cbv zeta.
  assert (Early : tle (_expire (this w)) (ev_now (_loop w)) = false ->
                  fired (trace (_loop (snd (invoke w))))
                  = fired (trace (_loop w))).
  { intro E; rewrite (invoke_early w E); cbn [snd].
    apply fired_tracks, set_tracks. }
  split.
  - split.
    + destruct (tle (_expire (this w)) (ev_now (_loop w))) eqn:E; [auto|].
      rewrite (Early eq_refl); intro H; exfalso; lia.
    + intro E; rewrite (invoke_due w E).
      rewrite (fired_tracks _ _ (run_tracks _ (at_fire w))); cbn.
      rewrite fired_app; cbn; lia.
  - intro E; split; [exact (Early E)|].
    rewrite (invoke_early w E); cbn [snd].
    split; [reflexivity|].
    destruct (set_arms w (tsub (_expire (this w)) (ev_now (_loop w))))
      as (_ & A & X).
    split; [exact A|]. split; [exact X|].
    intro H.
    rewrite (set_slow w _ H).
    cbn; split; reflexivity.
Qed.

(** C4: the timer moves Idle -> Armed by [start] and Armed -> Idle by
    [cancel]; when [invoke] fires ([expire <= now()]) the callback runs from
    a world in which the timer is already Idle; a callback that does not
    restart the timer leaves it Idle; and a physical expiry of a registered
    timer then runs the callback once, after which further expiries do
    nothing. *)
Theorem Timer_state_machine w :
  (phase_of w = Idle ->
   fst (start w) = true /\ phase_of (snd (start w)) = Armed)
  /\ (phase_of w = Armed ->
      fst (cancel w) = true /\ phase_of (snd (cancel w)) = Idle)
  /\ (tle (_expire (this w)) (ev_now (_loop w)) = true ->
      phase_of (at_fire w) = Idle
      /\ invoke w = run (_callback (this w)) (at_fire w)
      /\ (no_restart (_callback (this w)) = true ->
          snd (invoke w) = at_fire w
          /\ (active (_watcher (this w)) = true ->
              let w' := snd (expired w) in
              fired (trace (_loop w')) = S (fired (trace (_loop w)))
              /\ phase_of w' = Idle
              /\ expired w' = (tt, w')))).
Proof.
  unfold phase_of; split; [|split].
  - destruct (_active (this w)) eqn:A; [discriminate|]; intros _.
    rewrite (start_idle w A); split; reflexivity.
  - destruct (_active (this w)) eqn:A; [|discriminate]; intros _.
    rewrite (cancel_active w A); split; reflexivity.
  - intro E; split; [reflexivity|].
    split; [exact (invoke_due w E)|].
    intro N; split.
    + rewrite (invoke_due w E), run_no_restart; auto.
    + intro R; cbv zeta.
      unfold expired; rewrite R; unfold bind, set_watcher.
      rewrite invoke_due by exact E; cbn [_callback this].
      rewrite run_no_restart by auto.
      cbn; rewrite fired_app; cbn; repeat split; lia.
Qed.

(** A physical expiry keeps registration and flag in agreement, provided
    the re-arm of an early report is not taken for a shortening. *)
Lemma expired_consistent w :
  consistent w ->
  (tle (_expire (this w)) (ev_now (_loop w)) = false ->
   tlt (tadd (ev_now (_loop w)) (tsub (_expire (this w)) (ev_now (_loop w))))
       (_expire (this w)) = false) ->
  consistent (snd (expired w)).
Proof.
  intros C H; unfold expired.
  destruct (active (_watcher (this w))) eqn:R; [|exact C].
  unfold bind, set_watcher.
  match goal with |- consistent (snd (invoke ?x)) => set (w1 := x) end.
  destruct (tle (_expire (this w)) (ev_now (_loop w))) eqn:E.
  - rewrite (invoke_due w1 E).
    apply run_consistent; reflexivity.
  - rewrite (invoke_early w1 E); cbn [snd].
    rewrite (set_slow w1 _) by (cbn; rewrite (H eq_refl); apply andb_false_r).
    reflexivity.
Qed.

End TimerClaims.

(** On binary64 time stamps the sum [now() + (expire - now())] can fall
    strictly below [expire]: at 1.3 with expire 3.4 it is
    3.3999999999999995.  [set], called by [invoke], then takes its first
    branch: the loop receives no call and only the expire time changes. *)
Remark binary64_sum_below_expire :
  tle (Timer._expire (Timer.this reported_early))
      (ev_now (Timer._loop reported_early)) = false
  /\ tlt (tadd (ev_now (Timer._loop reported_early))
               (tsub (Timer._expire (Timer.this reported_early))
                     (ev_now (Timer._loop reported_early))))
         (Timer._expire (Timer.this reported_early)) = true
  /\ Timer._loop (snd (Timer.invoke reported_early))
     = Timer._loop reported_early
  /\ Timer._watcher (Timer.this (snd (Timer.invoke reported_early)))
     = Timer._watcher (Timer.this reported_early)
  /\ Timer._expire (Timer.this (snd (Timer.invoke reported_early)))
     = 0x1.b333333333332p+1%float.
Proof.
  repeat split; vm_compute; reflexivity.
Qed.

(** C2, at a timer on binary64 time stamps: constructed at 1.1 for 2.3
    seconds and reported by the multiplexer at 1.3, it has
    [expire > now()].  The expiry runs no user callback, as the claim says,
    but it does not re-arm the timer either: the only start call the loop
    has ever received is the constructor's, the libev watcher is left
    stopped while the flag stays set, only the expire time has moved (to
    3.3999999999999995), and a later expiry finds nothing to report.  The
    comment in [invoke], "we set a new timer", is not met. *)
Theorem Timer_invoke_early_report_not_rearmed :
  let w := built_early in
  let w' := snd (Timer.expired w) in
  Timer.consistent w
  /\ Timer.active (Timer._watcher (Timer.this w)) = true
  /\ tle (Timer._expire (Timer.this w)) (ev_now (Timer._loop w)) = false
  /\ tlt (ev_now (Timer._loop w)) (Timer._expire (Timer.this w)) = true
  /\ fired (trace (Timer._loop w')) = 0
  /\ trace (Timer._loop w') = [EvTimerStart 0x1.2666666666666p+1%float 0%float]
  /\ Timer.active (Timer._watcher (Timer.this w')) = false
  /\ Timer._active (Timer.this w') = true
  /\ Timer._expire (Timer.this w') = 0x1.b333333333332p+1%float
  /\ Timer.expired w' = (tt, w')
  /\ snd (Timer.invoke reported_early) =
       Timer.with_expire reported_early 0x1.b333333333332p+1%float.
Proof.
  cbv zeta; repeat split; vm_compute; reflexivity.
Qed.


(** ** WriteWatcher: operations and sequences of public calls *)

Section WriteWatcherFacts.
Context {Timestamp : Type}.
Import WriteWatcher.
Implicit Types (w : World Timestamp) (c : WriteCallback).

Lemma io_cancel_idle w :
  _active (this w) = false -> cancel w = (false, w).
Proof.
  destruct w as [l [ev cb a]]; simpl; intros ->; reflexivity.
Qed.

Lemma io_cancel_active w :
  _active (this w) = true ->
  cancel w =
    (true,
     {| _loop := record (EvIoStop (fd (_watcher (this w)))) (_loop w);
        this := {| _watcher := {| active := false;
                                  fd := fd (_watcher (this w)) |};
                   _callback := _callback (this w);
                   _active := false |} |}).
Proof.
  destruct w as [l [ev cb a]]; simpl; intros ->; reflexivity.
Qed.

Lemma io_resume_active w :
  _active (this w) = true -> resume w = (false, w).
Proof.
  destruct w as [l [ev cb a]]; simpl; intros ->; reflexivity.
Qed.

Lemma io_resume_idle w :
  _active (this w) = false ->
  resume w =
    (true,
     {| _loop := record (EvIoStart (fd (_watcher (this w)))) (_loop w);
        this := {| _watcher := {| active := true;
                                  fd := fd (_watcher (this w)) |};
                   _callback := _callback (this w);
                   _active := true |} |}).
Proof.
  destruct w as [l [ev cb a]]; simpl; intros ->; reflexivity.
Qed.

Lemma io_tracks_refl w : tracks w w.
Proof.
  exists []; rewrite app_nil_r; split; [|split]; reflexivity.
Qed.

Lemma io_tracks_trans w1 w2 w3 : tracks w1 w2 -> tracks w2 w3 -> tracks w1 w3.
Proof.
  intros (evs1 & T1 & F1 & R1) (evs2 & T2 & F2 & R2).
  exists (evs1 ++ evs2); split; [|split].
  - rewrite T2, T1, app_assoc; reflexivity.
  - rewrite fired_app, F1, F2; reflexivity.
  - rewrite replay_app, R1; exact R2.
Qed.

Lemma io_cancel_tracks w : tracks w (snd (cancel w)).
Proof.
  destruct (_active (this w)) eqn:A.
  - rewrite (io_cancel_active w A); cbn.
    eexists; split; [reflexivity|]; rewrite A; split; reflexivity.
  - rewrite (io_cancel_idle w A); apply io_tracks_refl.
Qed.

Lemma io_resume_tracks w : tracks w (snd (resume w)).
Proof.
  destruct (_active (this w)) eqn:A.
  - rewrite (io_resume_active w A); apply io_tracks_refl.
  - rewrite (io_resume_idle w A); cbn.
    eexists; split; [reflexivity|]; rewrite A; split; reflexivity.
Qed.

Lemma io_cancel_consistent w : consistent w -> consistent (snd (cancel w)).
Proof.
  unfold consistent; intro C; destruct (_active (this w)) eqn:A.
  - rewrite (io_cancel_active w A); reflexivity.
  - rewrite (io_cancel_idle w A); cbn; congruence.
Qed.

Lemma io_resume_consistent w : consistent w -> consistent (snd (resume w)).
Proof.
  unfold consistent; intro C; destruct (_active (this w)) eqn:A.
  - rewrite (io_resume_active w A); cbn; congruence.
  - rewrite (io_resume_idle w A); reflexivity.
Qed.

Lemma io_run_cancel k w :
  run (CallCancel k) w = run (k (fst (cancel w))) (snd (cancel w)).
Proof.
  change (run (CallCancel k) w) with (let (b, w') := cancel w in run (k b) w').
  destruct (cancel w); reflexivity.
Qed.

Lemma io_run_resume k w :
  run (CallResume k) w = run (k (fst (resume w))) (snd (resume w)).
Proof.
  change (run (CallResume k) w) with (let (b, w') := resume w in run (k b) w').
  destruct (resume w); reflexivity.
Qed.

Lemma io_run_tracks c : forall w, tracks w (snd (run c w)).
Proof.
  induction c as [|k IH|k IH]; intro w.
  - apply io_tracks_refl.
  - rewrite io_run_cancel.
    exact (io_tracks_trans _ _ _ (io_cancel_tracks w) (IH _ _)).
  - rewrite io_run_resume.
    exact (io_tracks_trans _ _ _ (io_resume_tracks w) (IH _ _)).
Qed.

Lemma io_run_consistent c :
  forall w, consistent w -> consistent (snd (run c w)).
Proof.
  induction c as [|k IH|k IH]; intros w C.
  - exact C.
  - rewrite io_run_cancel; apply IH, io_cancel_consistent, C.
  - rewrite io_run_resume; apply IH, io_resume_consistent, C.
Qed.

(** What the public calls do to the watcher object depends on the object
    alone, not on the loop. *)
Lemma io_cancel_object w1 w2 :
  this w1 = this w2 ->
  fst (cancel w1) = fst (cancel w2)
  /\ this (snd (cancel w1)) = this (snd (cancel w2)).
Proof.
  destruct w1 as [l1 o1], w2 as [l2 o2]; cbn [this]; intros ->.
  destruct o2 as [ev cb a]; destruct a; split; reflexivity.
Qed.

Lemma io_resume_object w1 w2 :
  this w1 = this w2 ->
  fst (resume w1) = fst (resume w2)
  /\ this (snd (resume w1)) = this (snd (resume w2)).
Proof.
  destruct w1 as [l1 o1], w2 as [l2 o2]; cbn [this]; intros ->.
  destruct o2 as [ev cb a]; destruct a; split; reflexivity.
Qed.

Lemma io_run_object c :
  forall w1 w2, this w1 = this w2 ->
                this (snd (run c w1)) = this (snd (run c w2)).
Proof.
  induction c as [|k IH|k IH]; intros w1 w2 E.
  - exact E.
  - rewrite !io_run_cancel.
    destruct (io_cancel_object w1 w2 E) as [-> E']; apply IH, E'.
  - rewrite !io_run_resume.
    destruct (io_resume_object w1 w2 E) as [-> E']; apply IH, E'.
Qed.

(** C7: [invoke] of a write watcher runs the user callback whatever the
    state, exactly once, and does nothing else: the callback starts from
    the very watcher object [invoke] was entered with (active flag, libev
    watcher with its descriptor, callback), and the object [invoke] leaves
    behind is the one that the callback's own calls, made without [invoke],
    leave behind.  A callback that makes no call leaves the object as it
    was and the loop one marker richer. *)
Theorem WriteWatcher_invoke_forwards w :
  invoke w = run (_callback (this w)) (at_invoke w)
  /\ this (at_invoke w) = this w
  /\ fired (trace (_loop (snd (invoke w)))) = S (fired (trace (_loop w)))
  /\ this (snd (invoke w)) = this (snd (run (_callback (this w)) w))
  /\ (_callback (this w) = Done ->
      this (snd (invoke w)) = this w
      /\ trace (_loop (snd (invoke w))) = trace (_loop w) ++ [UserCallback]).
Proof.
  assert (I : invoke w = run (_callback (this w)) (at_invoke w)).
  { destruct w as [l [ev cb a]]; reflexivity. }
  split; [exact I|]. split; [reflexivity|]. split; [|split].
  - rewrite I.
    destruct (io_run_tracks (_callback (this w)) (at_invoke w))
      as (evs & T & F & _).
    rewrite T, fired_app, F; cbn; rewrite fired_app; cbn; lia.
  - rewrite I; apply io_run_object; reflexivity.
  - intro D; rewrite I, D; cbn; split; reflexivity.
Qed.

End WriteWatcherFacts.

(** ** Synchronizer *)

Section SynchronizerClaims.
Context {Timestamp : Type}.
Import Synchronizer.
Implicit Types w : World Timestamp.

(** C8: in every state the call operator gives what [synchronize] gives,
    result and world alike: both return true, send the loop one wake-up
    and latch it in the watcher. *)
Theorem Synchronizer_call_operator_is_synchronize w :
  call_operator w = synchronize w
  /\ fst (synchronize w) = true
  /\ trace (_loop (snd (synchronize w))) = trace (_loop w) ++ [EvAsyncSend]
  /\ sent (_watcher (this (snd (synchronize w)))) = true
  /\ fst (call_operator w) = true
  /\ trace (_loop (snd (call_operator w))) = trace (_loop w) ++ [EvAsyncSend]
  /\ sent (_watcher (this (snd (call_operator w)))) = true.
Proof.
  destruct w as [l [ev cb]]; cbn; repeat split.
Qed.

End SynchronizerClaims.

(** ** Timer and WriteWatcher together *)

Section WatcherClaims.
Context {Timestamp : Type} {clock : Clock Timestamp}.

(** C3: [start] and [resume] return true exactly when they find the flag
    cleared and leave it set, [cancel] exactly when it finds the flag set
    and leaves it cleared; a call that returns false changes nothing; and
    the same call made again returns false and leaves the whole world
    (flag, expire time, libev watcher, trace of the loop) as the first call
    left it.  Every call returns a boolean: there is no failure result. *)
Theorem start_resume_cancel_idempotent :
  (forall w : Timer.World Timestamp,
      let r := Timer.start w in
      (fst r = true <->
       Timer._active (Timer.this w) = false
       /\ Timer._active (Timer.this (snd r)) = true)
      /\ Timer._active (Timer.this (snd r)) = true
      /\ (fst r = false -> snd r = w)
      /\ Timer.start (snd r) = (false, snd r))
  /\ (forall w : Timer.World Timestamp,
      let r := Timer.cancel w in
      (fst r = true <->
       Timer._active (Timer.this w) = true
       /\ Timer._active (Timer.this (snd r)) = false)
      /\ Timer._active (Timer.this (snd r)) = false
      /\ (fst r = false -> snd r = w)
      /\ Timer.cancel (snd r) = (false, snd r))
  /\ (forall w : WriteWatcher.World Timestamp,
      let r := WriteWatcher.resume w in
      (fst r = true <->
       WriteWatcher._active (WriteWatcher.this w) = false
       /\ WriteWatcher._active (WriteWatcher.this (snd r)) = true)
      /\ WriteWatcher._active (WriteWatcher.this (snd r)) = true
      /\ (fst r = false -> snd r = w)
      /\ WriteWatcher.resume (snd r) = (false, snd r))
  /\ (forall w : WriteWatcher.World Timestamp,
      let r := WriteWatcher.cancel w in
      (fst r = true <->
       WriteWatcher._active (WriteWatcher.this w) = true
       /\ WriteWatcher._active (WriteWatcher.this (snd r)) = false)
      /\ WriteWatcher._active (WriteWatcher.this (snd r)) = false
      /\ (fst r = false -> snd r = w)
      /\ WriteWatcher.cancel (snd r) = (false, snd r)).
Proof.
  split; [|split; [|split]]; intro w; cbv zeta.
  - destruct (Timer._active (Timer.this w)) eqn:A.
    + rewrite (start_active w A); cbn [fst snd]; rewrite (start_active w A), A.
      intuition congruence.
    + rewrite (start_idle w A); cbn [fst snd].
      rewrite start_active by reflexivity; cbn; intuition congruence.
  - destruct (Timer._active (Timer.this w)) eqn:A.
    + rewrite (cancel_active w A); cbn [fst snd].
      rewrite cancel_idle by reflexivity; cbn; intuition congruence.
    + rewrite (cancel_idle w A); cbn [fst snd]; rewrite (cancel_idle w A), A.
      intuition congruence.
  - destruct (WriteWatcher._active (WriteWatcher.this w)) eqn:A.
    + rewrite (io_resume_active w A); cbn [fst snd]; rewrite (io_resume_active w A), A.
      intuition congruence.
    + rewrite (io_resume_idle w A); cbn [fst snd].
      rewrite io_resume_active by reflexivity; cbn; intuition congruence.
  - destruct (WriteWatcher._active (WriteWatcher.this w)) eqn:A.
    + rewrite (io_cancel_active w A); cbn [fst snd].
      rewrite io_cancel_idle by reflexivity; cbn; intuition congruence.
    + rewrite (io_cancel_idle w A); cbn [fst snd]; rewrite (io_cancel_idle w A), A.
      intuition congruence.
Qed.

(** C6: whatever [initialize] does, as long as it leaves the active flag
    alone, the constructor of a timer ends with the flag set, the libev
    watcher started and the start call as the last call the loop has seen.
    The destructors of a timer and of a write watcher do what [cancel]
    does: the flag ends cleared, the loop has received a stop call exactly
    if the flag was set, and if registration and flag agreed the watcher
    ends unregistered. *)
Theorem construction_arms_destruction_cancels :
  (forall (init : Timestamp -> M (Timer.World Timestamp) unit),
      (forall t w, Timer._active (Timer.this (snd (init t w)))
                   = Timer._active (Timer.this w)) ->
      forall loop timeout callback raw,
        let w := Timer.construct_with init loop timeout callback raw in
        Timer._active (Timer.this w) = true
        /\ Timer.active (Timer._watcher (Timer.this w)) = true
        /\ exists before after repeat,
             trace (Timer._loop w) = before ++ [EvTimerStart after repeat])
  /\ (forall w : Timer.World Timestamp,
      let w' := snd (Timer.destroy w) in
      w' = snd (Timer.cancel w)
      /\ Timer._active (Timer.this w') = false
      /\ trace (Timer._loop w') =
           trace (Timer._loop w)
           ++ (if Timer._active (Timer.this w) then [EvTimerStop] else [])
      /\ (Timer.consistent w ->
          Timer.active (Timer._watcher (Timer.this w')) = false))
  /\ (forall w : WriteWatcher.World Timestamp,
      let w' := snd (WriteWatcher.destroy w) in
      w' = snd (WriteWatcher.cancel w)
      /\ WriteWatcher._active (WriteWatcher.this w') = false
      /\ trace (WriteWatcher._loop w') =
           trace (WriteWatcher._loop w)
           ++ (if WriteWatcher._active (WriteWatcher.this w)
               then [EvIoStop (WriteWatcher.fd
                                 (WriteWatcher._watcher (WriteWatcher.this w)))]
               else [])
      /\ (WriteWatcher.consistent w ->
          WriteWatcher.active (WriteWatcher._watcher (WriteWatcher.this w'))
          = false)).
Proof.
  split; [|split].
  - intros init Hinit loop timeout callback raw; cbv zeta.
    unfold Timer.construct_with, bind.
    match goal with |- context [init timeout ?w0] =>
      pose proof (Hinit timeout w0) as A; destruct (init timeout w0) as [u w1]
    end.
    cbn in A; rewrite (start_idle w1 A); cbn.
    split; [reflexivity|]. split; [reflexivity|].
    eexists _, _, _; reflexivity.
  - intro w; cbv zeta.
    assert (D : snd (Timer.destroy w) = snd (Timer.cancel w)).
    { unfold Timer.destroy, bind; destruct (Timer.cancel w); reflexivity. }
    rewrite D; split; [reflexivity|].
    unfold Timer.consistent; destruct (Timer._active (Timer.this w)) eqn:A.
    + rewrite (cancel_active w A); cbn; auto.
    + rewrite (cancel_idle w A), app_nil_r; auto.
  - intro w; cbv zeta.
    assert (D : snd (WriteWatcher.destroy w) = snd (WriteWatcher.cancel w)).
    { unfold WriteWatcher.destroy, bind; destruct (WriteWatcher.cancel w);
        reflexivity. }
    rewrite D; split; [reflexivity|].
    unfold WriteWatcher.consistent.
    destruct (WriteWatcher._active (WriteWatcher.this w)) eqn:A.
    + rewrite (io_cancel_active w A); cbn; auto.
    + rewrite (io_cancel_idle w A), app_nil_r; auto.
Qed.

(** C10: from a world in which the libev watcher is started exactly if the
    active flag is set, every public call of a timer ([start], [cancel],
    [set]) and of a write watcher ([cancel], [resume]), and every sequence
    of such calls, ends in such a world.  [start] and [resume] issue the
    start call exactly if they find the flag cleared, and set it; [cancel]
    issues the stop call exactly if it finds the flag set, and clears it;
    the calls issued by [set] and by sequences pair up with the flag in the
    same way. *)
Theorem registration_follows_active_flag :
  (forall w : Timer.World Timestamp,
      Timer.consistent w ->
      (Timer.consistent (snd (Timer.start w))
       /\ Timer._active (Timer.this (snd (Timer.start w))) = true
       /\ trace (Timer._loop (snd (Timer.start w))) =
            trace (Timer._loop w)
            ++ (if Timer._active (Timer.this w) then []
                else [EvTimerStart
                        (Timer.at_ (Timer._watcher (Timer.this w)))
                        (Timer.repeat_ (Timer._watcher (Timer.this w)))]))
      /\ (Timer.consistent (snd (Timer.cancel w))
          /\ Timer._active (Timer.this (snd (Timer.cancel w))) = false
          /\ trace (Timer._loop (snd (Timer.cancel w))) =
               trace (Timer._loop w)
               ++ (if Timer._active (Timer.this w) then [EvTimerStop]
                   else []))
      /\ (forall timeout,
             Timer.consistent (snd (Timer.set timeout w))
             /\ Timer.tracks w (snd (Timer.set timeout w)))
      /\ (forall c,
             Timer.consistent (snd (Timer.run c w))
             /\ Timer.tracks w (snd (Timer.run c w))))
  /\ (forall w : WriteWatcher.World Timestamp,
      WriteWatcher.consistent w ->
      (WriteWatcher.consistent (snd (WriteWatcher.resume w))
       /\ WriteWatcher._active (WriteWatcher.this (snd (WriteWatcher.resume w)))
          = true
       /\ trace (WriteWatcher._loop (snd (WriteWatcher.resume w))) =
            trace (WriteWatcher._loop w)
            ++ (if WriteWatcher._active (WriteWatcher.this w) then []
                else [EvIoStart
                        (WriteWatcher.fd
                           (WriteWatcher._watcher (WriteWatcher.this w)))]))
      /\ (WriteWatcher.consistent (snd (WriteWatcher.cancel w))
          /\ WriteWatcher._active
               (WriteWatcher.this (snd (WriteWatcher.cancel w))) = false
          /\ trace (WriteWatcher._loop (snd (WriteWatcher.cancel w))) =
               trace (WriteWatcher._loop w)
               ++ (if WriteWatcher._active (WriteWatcher.this w)
                   then [EvIoStop
                           (WriteWatcher.fd
                              (WriteWatcher._watcher (WriteWatcher.this w)))]
                   else []))
      /\ (forall c,
             WriteWatcher.consistent (snd (WriteWatcher.run c w))
             /\ WriteWatcher.tracks w (snd (WriteWatcher.run c w)))).
Proof.
  split; intros w C.
  - split; [|split; [|split]].
    + split; [exact (start_consistent w C)|].
      destruct (Timer._active (Timer.this w)) eqn:A.
      * rewrite (start_active w A), app_nil_r; auto.
      * rewrite (start_idle w A); cbn; auto.
    + split; [exact (cancel_consistent w C)|].
      destruct (Timer._active (Timer.this w)) eqn:A.
      * rewrite (cancel_active w A); cbn; auto.
      * rewrite (cancel_idle w A), app_nil_r; auto.
    + intro timeout; split;
        [exact (set_consistent w timeout C) | exact (set_tracks w timeout)].
    + intro c; split; [exact (run_consistent c w C) | exact (run_tracks c w)].
  - split; [|split].
    + split; [exact (io_resume_consistent w C)|].
      destruct (WriteWatcher._active (WriteWatcher.this w)) eqn:A.
      * rewrite (io_resume_active w A), app_nil_r; auto.
      * rewrite (io_resume_idle w A); cbn; auto.
    + split; [exact (io_cancel_consistent w C)|].
      destruct (WriteWatcher._active (WriteWatcher.this w)) eqn:A.
      * rewrite (io_cancel_active w A); cbn; auto.
      * rewrite (io_cancel_idle w A), app_nil_r; auto.
    + intro c; split;
        [exact (io_run_consistent c w C) | exact (io_run_tracks c w)].
Qed.

End WatcherClaims.

(** ** The claims at concrete worlds (integer ticks) *)

(** C1 at the timer armed for tick 150, shortened at tick 100 to 20 ticks. *)
Lemma Timer_set_earlier_updates_expire_only_witness :
  Timer._active (Timer.this armed_timer) = true
  /\ tlt (tadd (ev_now (Timer._loop armed_timer)) 20%Z)
         (Timer._expire (Timer.this armed_timer)) = true
  /\ fst (Timer.set 20%Z armed_timer) = true
  /\ Timer._expire (Timer.this (snd (Timer.set 20%Z armed_timer))) = 120%Z
  /\ Timer._loop (snd (Timer.set 20%Z armed_timer)) = Timer._loop armed_timer.
Proof.
  split; [reflexivity|]. split; [reflexivity|].
  destruct (Timer_set_earlier_updates_expire_only (clock := Z_clock) armed_timer 20%Z
              ltac:(reflexivity) ltac:(reflexivity)) as (R & E & L & _).
  split; [exact R|]. split; [exact E | exact L].
Defined.

(** C5 at the same timer, lengthened at tick 100 to 80 ticks. *)
Lemma Timer_set_otherwise_rearms_witness :
  Timer._active (Timer.this armed_timer)
  && tlt (tadd (ev_now (Timer._loop armed_timer)) 80%Z)
         (Timer._expire (Timer.this armed_timer)) = false
  /\ Timer.consistent armed_timer
  /\ fst (Timer.set 80%Z armed_timer) = true
  /\ trace (Timer._loop (snd (Timer.set 80%Z armed_timer))) =
       [EvTimerStart 50%Z 0%Z; EvTimerStop; EvTimerStart 80%Z 0%Z]
  /\ Timer._expire (Timer.this (snd (Timer.set 80%Z armed_timer))) = 180%Z
  /\ replay true [EvTimerStop; EvTimerStart 80%Z 0%Z] = Some true.
Proof.
  split; [reflexivity|]. split; [reflexivity|].
  destruct (Timer_set_otherwise_rearms (clock := Z_clock) armed_timer 80%Z ltac:(reflexivity))
    as (R & T & _ & _ & E & _ & P).
  split; [exact R|]. split; [exact T|]. split; [exact E|].
  exact (P ltac:(reflexivity)).
Defined.

(** X12 at the timer due at tick 150, dispatched at tick 150 and at tick
    120. *)
Lemma Timer_invoke_fires_or_rearms_witness :
  tle (Timer._expire (Timer.this due_timer))
      (ev_now (Timer._loop due_timer)) = true
  /\ fired (trace (Timer._loop (snd (Timer.invoke due_timer)))) = 1
  /\ tle (Timer._expire (Timer.this early_timer))
         (ev_now (Timer._loop early_timer)) = false
  /\ Timer._active (Timer.this early_timer)
     && tlt (tadd 120%Z (tsub 150%Z 120%Z)) 150%Z = false
  /\ fired (trace (Timer._loop (snd (Timer.invoke early_timer)))) = 0
  /\ trace (Timer._loop (snd (Timer.invoke early_timer))) =
       [EvTimerStart 50%Z 0%Z; EvTimerStop; EvTimerStart 30%Z 0%Z].
Proof.
  destruct (Timer_invoke_fires_or_rearms (clock := Z_clock) due_timer) as ((_ & F) & _).
  destruct (Timer_invoke_fires_or_rearms (clock := Z_clock) early_timer) as (_ & G).
  destruct (G ltac:(reflexivity)) as (Q & _ & _ & _ & P).
  destruct (P ltac:(reflexivity)) as (T & _).
  split; [reflexivity|]. split; [exact (F ltac:(reflexivity))|].
  split; [reflexivity|]. split; [reflexivity|].
  split; [exact Q | exact T].
Defined.

(** C4 at the idle, the armed and the due timer. *)
Lemma Timer_state_machine_witness :
  Timer.phase_of idle_timer = Timer.Idle
  /\ Timer.phase_of (snd (Timer.start idle_timer)) = Timer.Armed
  /\ Timer.phase_of armed_timer = Timer.Armed
  /\ Timer.phase_of (snd (Timer.cancel armed_timer)) = Timer.Idle
  /\ tle (Timer._expire (Timer.this due_timer))
         (ev_now (Timer._loop due_timer)) = true
  /\ Timer.no_restart (Timer._callback (Timer.this due_timer)) = true
  /\ Timer.active (Timer._watcher (Timer.this due_timer)) = true
  /\ fired (trace (Timer._loop (snd (Timer.expired due_timer)))) = 1
  /\ Timer.phase_of (snd (Timer.expired due_timer)) = Timer.Idle
  /\ Timer.expired (snd (Timer.expired due_timer))
     = (tt, snd (Timer.expired due_timer)).
Proof.
  destruct (Timer_state_machine (clock := Z_clock) idle_timer) as (S1 & _).
  destruct (Timer_state_machine (clock := Z_clock) armed_timer) as (_ & S2 & _).
  destruct (Timer_state_machine (clock := Z_clock) due_timer) as (_ & _ & S3).
  destruct (S3 ltac:(reflexivity)) as (_ & _ & S4).
  destruct (S4 ltac:(reflexivity)) as (_ & S5).
  destruct (S5 ltac:(reflexivity)) as (F & P & X).
  split; [reflexivity|]. split; [exact (proj2 (S1 ltac:(reflexivity)))|].
  split; [reflexivity|]. split; [exact (proj2 (S2 ltac:(reflexivity)))|].
  split; [reflexivity|]. split; [reflexivity|]. split; [reflexivity|].
  split; [exact F|]. split; [exact P | exact X].
Defined.

(** C3 at the armed and the idle timer and at the write watcher. *)
Lemma start_resume_cancel_idempotent_witness :
  Timer._active (Timer.this idle_timer) = false
  /\ fst (Timer.start idle_timer) = true
  /\ Timer.start (snd (Timer.start idle_timer))
     = (false, snd (Timer.start idle_timer))
  /\ fst (Timer.start armed_timer) = false
  /\ snd (Timer.start armed_timer) = armed_timer
  /\ WriteWatcher._active (WriteWatcher.this writer4) = true
  /\ fst (WriteWatcher.cancel writer4) = true
  /\ WriteWatcher.cancel (snd (WriteWatcher.cancel writer4))
     = (false, snd (WriteWatcher.cancel writer4)).
Proof.
  destruct (start_resume_cancel_idempotent (Timestamp := Z))
    as (TS & _ & _ & WC).
  destruct (TS idle_timer) as (S1 & S2 & _ & S4).
  destruct (TS armed_timer) as (_ & _ & S3 & _).
  destruct (WC writer4) as (C1 & C2 & _ & C4).
  split; [reflexivity|].
  split; [apply S1; split; [reflexivity | exact S2]|]. split; [exact S4|].
  split; [reflexivity|]. split; [exact (S3 ltac:(reflexivity))|].
  split; [reflexivity|].
  split; [apply C1; split; [reflexivity | exact C2] | exact C4].
Defined.

(** C6 with the body of [initialize] as modelled above. *)
Lemma construction_arms_destruction_cancels_witness :
  (forall (t : Z) (w : Timer.World Z),
      Timer._active (Timer.this (snd (Timer.initialize t w)))
      = Timer._active (Timer.this w))
  /\ Timer._active (Timer.this armed_timer) = true
  /\ Timer.active (Timer._watcher (Timer.this armed_timer)) = true
  /\ Timer.consistent armed_timer
  /\ Timer.active (Timer._watcher (Timer.this (snd (Timer.destroy armed_timer))))
     = false
  /\ trace (Timer._loop (snd (Timer.destroy armed_timer))) =
       [EvTimerStart 50%Z 0%Z; EvTimerStop]
  /\ WriteWatcher.consistent writer4
  /\ WriteWatcher.active
       (WriteWatcher._watcher
          (WriteWatcher.this (snd (WriteWatcher.destroy writer4)))) = false.
Proof.
  assert (H : forall (t : Z) (w : Timer.World Z),
             Timer._active (Timer.this (snd (Timer.initialize t w)))
             = Timer._active (Timer.this w)).
  { intros t w; reflexivity. }
  destruct (construction_arms_destruction_cancels (Timestamp := Z))
    as (K & DT & DW).
  destruct (K Timer.initialize H loop100 50%Z cancelling
              ({| Timer.active := true; Timer.at_ := 7%Z;
                  Timer.repeat_ := 7%Z |}, 7%Z)) as (A & R & _).
  destruct (DT armed_timer) as (_ & _ & T & U).
  destruct (DW writer4) as (_ & _ & _ & V).
  split; [exact H|]. split; [exact A|]. split; [exact R|].
  split; [reflexivity|]. split; [exact (U ltac:(reflexivity))|].
  split; [exact T|]. split; [reflexivity | exact (V ltac:(reflexivity))].
Defined.

(** C7 at the write watcher on descriptor 4. *)
Lemma WriteWatcher_invoke_forwards_witness :
  WriteWatcher._callback (WriteWatcher.this writer4) = WriteWatcher.Done
  /\ WriteWatcher.this (snd (WriteWatcher.invoke writer4))
     = WriteWatcher.this writer4
  /\ trace (WriteWatcher._loop (snd (WriteWatcher.invoke writer4))) =
       [EvIoStart 4%Z; UserCallback].
Proof.
  destruct (WriteWatcher_invoke_forwards writer4) as (_ & _ & _ & _ & D).
  split; [reflexivity | exact (D ltac:(reflexivity))].
Defined.

(** C10 at the armed timer and at the write watcher. *)
Lemma registration_follows_active_flag_witness :
  Timer.consistent armed_timer
  /\ Timer.consistent (snd (Timer.set 80%Z armed_timer))
  /\ Timer.tracks armed_timer (snd (Timer.set 80%Z armed_timer))
  /\ WriteWatcher.consistent writer4
  /\ WriteWatcher.consistent (snd (WriteWatcher.cancel writer4))
  /\ trace (WriteWatcher._loop (snd (WriteWatcher.cancel writer4))) =
       [EvIoStart 4%Z; EvIoStop 4%Z].
Proof.
  destruct (registration_follows_active_flag (clock := Z_clock)) as (T & W).
  destruct (T armed_timer ltac:(reflexivity)) as (_ & _ & S & _).
  destruct (W writer4 ltac:(reflexivity)) as (_ & (C & _ & R) & _).
  split; [reflexivity|]. split; [exact (proj1 (S 80%Z))|].
  split; [exact (proj2 (S 80%Z))|]. split; [reflexivity|].
  split; [exact C | exact R].
Defined.

(** C9 at the cancelled and at the armed timer. *)
Lemma Timer_set_always_arms_witness :
  Timer.consistent idle_timer
  /\ Timer._active (Timer.this idle_timer) = false
  /\ Timer.active (Timer._watcher (Timer.this (snd (Timer.set 30%Z idle_timer))))
     = true
  /\ trace (Timer._loop (snd (Timer.set 30%Z idle_timer))) =
       trace (Timer._loop idle_timer) ++ [EvTimerStart 30%Z 0%Z]
  /\ Timer.consistent armed_timer
  /\ Timer.active (Timer._watcher (Timer.this (snd (Timer.set 20%Z armed_timer))))
     = true.
Proof.
  destruct (Timer_set_always_arms (clock := Z_clock) idle_timer 30%Z)
    as (_ & _ & _ & C & I).
  destruct (Timer_set_always_arms (clock := Z_clock) armed_timer 20%Z)
    as (_ & _ & _ & C' & _).
  split; [reflexivity|]. split; [reflexivity|].
  split; [exact (proj2 (C ltac:(reflexivity)))|].
  split; [exact (proj1 (I ltac:(reflexivity)))|].
  split; [reflexivity | exact (proj2 (C' ltac:(reflexivity)))].
Defined.

(** * Further properties of the code *)

(** ** Counting calls *)

Section TraceCounts.
Context {Timestamp : Type}.
Implicit Types evs : list (event Timestamp).

Lemma starts_app evs1 evs2 : starts (evs1 ++ evs2) = starts evs1 + starts evs2.
Proof.
  induction evs1 as [|e evs1 IH]; simpl; [reflexivity|].
  destruct e; simpl; rewrite IH; reflexivity.
Qed.

Lemma stops_app evs1 evs2 : stops (evs1 ++ evs2) = stops evs1 + stops evs2.
Proof.
  induction evs1 as [|e evs1 IH]; simpl; [reflexivity|].
  destruct e; simpl; rewrite IH; reflexivity.
Qed.

Lemma sends_app evs1 evs2 : sends (evs1 ++ evs2) = sends evs1 + sends evs2.
Proof.
  induction evs1 as [|e evs1 IH]; simpl; [reflexivity|].
  destruct e; simpl; rewrite IH; reflexivity.
Qed.

Lemma only_fd_app d evs1 evs2 :
  only_fd d (evs1 ++ evs2) = only_fd d evs1 && only_fd d evs2.
Proof.
  induction evs1 as [|e evs1 IH]; simpl; [reflexivity|].
  destruct e; simpl; rewrite ?IH, ?andb_assoc; reflexivity.
Qed.

(** Calls that pair up with a flag are balanced up to the flag's change. *)
Lemma replay_balance evs :
  forall r r' : bool,
    replay r evs = Some r' ->
    starts evs + (if r then 1 else 0) = stops evs + (if r' then 1 else 0).
Proof.
  induction evs as [|e evs IH]; intros r r' R; simpl in R.
  - injection R as <-; reflexivity.
  - destruct e; simpl; try exact (IH _ _ R);
      destruct r; try discriminate; specialize (IH _ _ R); simpl in IH; lia.
Qed.

End TraceCounts.

(** ** Timer: what the calls leave alone *)

Section TimerFrames.
Context {Timestamp : Type} {clock : Clock Timestamp}.
Import Timer.
Implicit Types (w : World Timestamp) (c : TimerCallback Timestamp).

Lemma start_frame w :
  _callback (this (snd (start w))) = _callback (this w)
  /\ _expire (this (snd (start w))) = _expire (this w)
  /\ ev_now (_loop (snd (start w))) = ev_now (_loop w).
Proof.
  destruct (_active (this w)) eqn:A.
  - rewrite (start_active w A); auto.
  - rewrite (start_idle w A); auto.
Qed.

Lemma cancel_frame w :
  _callback (this (snd (cancel w))) = _callback (this w)
  /\ _expire (this (snd (cancel w))) = _expire (this w)
  /\ ev_now (_loop (snd (cancel w))) = ev_now (_loop w).
Proof.
  destruct (_active (this w)) eqn:A.
  - rewrite (cancel_active w A); auto.
  - rewrite (cancel_idle w A); auto.
Qed.

Lemma set_frame w timeout :
  _callback (this (snd (set timeout w))) = _callback (this w)
  /\ ev_now (_loop (snd (set timeout w))) = ev_now (_loop w).
Proof.
  destruct (_active (this w)
            && tlt (tadd (ev_now (_loop w)) timeout) (_expire (this w))) eqn:G.
  - rewrite (set_fast w timeout G); auto.
  - rewrite (set_slow w timeout G); auto.
Qed.

Lemma run_frame c :
  forall w,
    _callback (this (snd (run c w))) = _callback (this w)
    /\ ev_now (_loop (snd (run c w))) = ev_now (_loop w)
    /\ (no_set c = true ->
        _expire (this (snd (run c w))) = _expire (this w)).
Proof.
  induction c as [|k IH|k IH|timeout k IH]; intro w.
  - repeat split.
  - rewrite run_start.
    destruct (IH (fst (start w)) (snd (start w))) as (C & N & E).
    destruct (start_frame w) as (C0 & E0 & N0).
    rewrite C, N, C0, N0; repeat split.
    cbn [no_set]; intro S; apply andb_prop in S; destruct S as [S1 S2].
    rewrite E, E0; [reflexivity|]. destruct (fst (start w)); assumption.
  - rewrite run_cancel.
    destruct (IH (fst (cancel w)) (snd (cancel w))) as (C & N & E).
    destruct (cancel_frame w) as (C0 & E0 & N0).
    rewrite C, N, C0, N0; repeat split.
    cbn [no_set]; intro S; apply andb_prop in S; destruct S as [S1 S2].
    rewrite E, E0; [reflexivity|]. destruct (fst (cancel w)); assumption.
  - rewrite run_set.
    destruct (IH (fst (set timeout w)) (snd (set timeout w))) as (C & N & _).
    destruct (set_frame w timeout) as (C0 & N0).
    rewrite C, N, C0, N0; repeat split.
    cbn [no_set]; discriminate.
Qed.

(** X3: no sequence of [start], [cancel] and [set] calls replaces the
    callback, moves the loop's clock, removes a call from the loop's trace
    or runs the user callback; and a sequence without [set] leaves the
    expire time where it was, however often the timer is cancelled and
    started again. *)
Theorem Timer_calls_frame c w :
  _callback (this (snd (run c w))) = _callback (this w)
  /\ ev_now (_loop (snd (run c w))) = ev_now (_loop w)
  /\ (exists evs,
         trace (_loop (snd (run c w))) = trace (_loop w) ++ evs
         /\ fired evs = 0)
  /\ (no_set c = true ->
      _expire (this (snd (run c w))) = _expire (this w)).
Proof.
  destruct (run_frame c w) as (C & N & E).
  destruct (run_tracks c w) as (evs & T & F & _).
  split; [exact C|]. split; [exact N|]. split; [|exact E].
  exists evs; split; assumption.
Qed.

(** X1: a second [set] with the same timeout, made before the loop's clock
    moves, is not absorbed: the deadline equals the expire time, which is
    not strictly earlier, so the watcher is stopped and started again with
    that timeout.  Assumes only that a time stamp is not below itself. *)
Theorem Timer_set_same_timeout_rearms w (timeout : Timestamp) :
  tlt (tadd (ev_now (_loop w)) timeout) (tadd (ev_now (_loop w)) timeout)
    = false ->
  let w1 := snd (set timeout w) in
  let w2 := snd (set timeout w1) in
  fst (set timeout w1) = true
  /\ trace (_loop w2) =
       trace (_loop w1) ++ [EvTimerStop; EvTimerStart timeout tzero]
  /\ _watcher (this w2) =
       {| active := true; at_ := timeout; repeat_ := tzero |}
  /\ _expire (this w2) = _expire (this w1)
  /\ _active (this w2) = true.
Proof.
  intros I; cbv zeta.
  destruct (set_arms w timeout) as (_ & A & E).
  destruct (set_frame w timeout) as (_ & N).
  rewrite (set_slow (snd (set timeout w)) timeout)
    by (rewrite N, E, I; apply andb_false_r).
  cbn [fst snd _loop this trace _watcher _expire _active].
  rewrite A, N, E; repeat split.
Qed.

(** X2: on an active timer, a run of [set] calls each of which shortens
    the deadline in force is absorbed entirely: the loop receives no call,
    the libev watcher keeps the timeout it was started with, and the expire
    time is the deadline of the last call. *)
Theorem Timer_shortenings_batched (ts : list Timestamp) :
  forall w,
    _active (this w) = true ->
    shortening (ev_now (_loop w)) (_expire (this w)) ts = true ->
    let w' := snd (set_each ts w) in
    _loop w' = _loop w
    /\ _watcher (this w') = _watcher (this w)
    /\ _active (this w') = true
    /\ _callback (this w') = _callback (this w)
    /\ _expire (this w') =
         fold_left (fun _ t => tadd (ev_now (_loop w)) t) ts (_expire (this w)).
Proof.
  induction ts as [|t ts IH]; intros w A S; cbv zeta.
  - cbn; auto.
  - cbn [shortening] in S; apply andb_prop in S; destruct S as [L S].
    change (set_each (t :: ts) w)
      with (let (_, w') := set t w in set_each ts w').
    rewrite (set_fast w t) by (rewrite A, L; reflexivity).
    specialize (IH (with_expire w (tadd (ev_now (_loop w)) t)) A S).
    cbv zeta in IH; cbn in IH; cbn [fold_left]; exact IH.
Qed.

(** X4: on an active timer [cancel] followed by [start] both return true,
    the loop receives one stop and then one start call, and the timer is
    active again with the callback and the expire time it had: [start] does
    not compute a new expire time. *)
Theorem Timer_cancel_start_round_trip w :
  _active (this w) = true ->
  let w1 := snd (cancel w) in
  let w2 := snd (start w1) in
  fst (cancel w) = true
  /\ fst (start w1) = true
  /\ _active (this w2) = true
  /\ active (_watcher (this w2)) = true
  /\ _expire (this w2) = _expire (this w)
  /\ _callback (this w2) = _callback (this w)
  /\ exists after repeat,
       trace (_loop w2) =
         trace (_loop w) ++ [EvTimerStop; EvTimerStart after repeat].
Proof.
  intro A; cbv zeta.
  rewrite (cancel_active w A); cbn [fst snd].
  rewrite start_idle by reflexivity; cbn.
  repeat split.
  eexists _, _; unfold record; cbn; rewrite <- app_assoc; reflexivity.
Qed.

(** X6: what the user callback meets when [invoke] fires.  A callback that
    begins with [cancel] gets false and changes nothing; one that begins
    with [start] gets true; one that begins with [set] gets true and
    re-arms the timer: the loop receives a start call with the new timeout
    and no stop call, and expire is [now() + timeout]. *)
Theorem Timer_callback_on_fire w :
  tle (_expire (this w)) (ev_now (_loop w)) = true ->
  (forall k, _callback (this w) = CallCancel k ->
             invoke w = run (k false) (at_fire w))
  /\ (forall k, _callback (this w) = CallStart k ->
                invoke w = run (k true) (snd (start (at_fire w)))
                /\ _active (this (snd (start (at_fire w)))) = true)
  /\ (forall timeout k, _callback (this w) = CallSet timeout k ->
        let w1 := snd (set timeout (at_fire w)) in
        invoke w = run (k true) w1
        /\ trace (_loop w1) =
             trace (_loop w) ++ [UserCallback; EvTimerStart timeout tzero]
        /\ _active (this w1) = true
        /\ _expire (this w1) = tadd (ev_now (_loop w)) timeout).
Proof.
  intro E; rewrite (invoke_due w E).
  assert (A : _active (this (at_fire w)) = false) by reflexivity.
  split; [|split].
  - intros k ->. rewrite run_cancel, (cancel_idle _ A); reflexivity.
  - intros k ->. rewrite run_start, (start_idle _ A); split; reflexivity.
  - intros timeout k ->; cbv zeta.
    rewrite run_set, (set_slow (at_fire w) timeout) by (rewrite A; reflexivity).
    cbn; rewrite <- app_assoc; repeat split.
Qed.

(** X9: when [invoke] finds an active timer before its expire time and the
    sum [now() + (expire - now())] strictly below expire, the [set] it
    calls takes the absorbing branch: [invoke] only replaces the expire
    time by that sum; no callback runs and the loop receives no call, so a
    watcher the loop has dropped is not started again. *)
Theorem Timer_invoke_rearm_absorbed w :
  let e := _expire (this w) in
  let n := ev_now (_loop w) in
  _active (this w) = true ->
  tle e n = false ->
  tlt (tadd n (tsub e n)) e = true ->
  invoke w = (tt, with_expire w (tadd n (tsub e n))).
Proof.
  cbv zeta; intros A E L.
  rewrite (invoke_early w E), set_fast by (rewrite A, L; reflexivity).
  reflexivity.
Qed.

(** X7: over a timer's life without a physical fire (construction, any
    sequence of [start], [cancel] and [set] calls, destruction) the loop
    receives as many stop calls as start calls, and the timer ends with its
    flag cleared; provided [initialize] leaves the loop's trace and the
    active flag alone. *)
Theorem Timer_life_balanced
  (init : Timestamp -> M (World Timestamp) unit) :
  (forall t w, _active (this (snd (init t w))) = _active (this w)
               /\ trace (_loop (snd (init t w))) = trace (_loop w)) ->
  forall loop timeout callback raw c,
    let w' := life init loop timeout callback raw c in
    _active (this w') = false
    /\ exists evs,
         trace (_loop w') = trace loop ++ evs
         /\ starts evs = stops evs
         /\ fired evs = 0.
Proof.
  intros Hinit loop timeout callback raw c; cbv zeta.
  unfold life, construct_with, bind.
  match goal with |- context [init timeout ?w0] =>
    destruct (Hinit timeout w0) as [A T];
    destruct (init timeout w0) as [u w1]
  end.
  cbn in A, T; cbn [snd].
  assert (D : forall w, snd (destroy w) = snd (cancel w)).
  { intro w; unfold destroy, bind; destruct (cancel w); reflexivity. }
  rewrite D.
  pose proof (tracks_trans _ _ _
                (tracks_trans _ _ _ (start_tracks w1)
                   (run_tracks c (snd (start w1))))
                (cancel_tracks _)) as (evs & Tr & F & R).
  rewrite A in R.
  set (w3 := snd (cancel (snd (run c (snd (start w1)))))) in *.
  assert (Z : _active (this w3) = false).
  { subst w3; set (w2 := snd (run c (snd (start w1)))).
    destruct (_active (this w2)) eqn:A2.
    - rewrite (cancel_active w2 A2); reflexivity.
    - rewrite (cancel_idle w2 A2); exact A2. }
  split; [exact Z|].
  exists evs; split; [rewrite Tr, T; reflexivity|]. split; [|exact F].
  rewrite Z in R. pose proof (replay_balance evs _ _ R) as B; lia.
Qed.

End TimerFrames.

(** ** WriteWatcher: round trip, descriptor and life *)

Section WriteWatcherMore.
Context {Timestamp : Type}.
Import WriteWatcher.
Implicit Types (w : World Timestamp) (c : WriteCallback).

Lemma steps_refl w : steps w w 0.
Proof.
  split; [reflexivity|]. split; [reflexivity|].
  exists []; rewrite app_nil_r; repeat split.
Qed.

Lemma steps_trans w1 w2 w3 n1 n2 :
  steps w1 w2 n1 -> steps w2 w3 n2 -> steps w1 w3 (n1 + n2).
Proof.
  intros (D1 & C1 & evs1 & T1 & R1 & O1 & F1)
         (D2 & C2 & evs2 & T2 & R2 & O2 & F2).
  split; [congruence|]. split; [congruence|].
  exists (evs1 ++ evs2); split; [|split; [|split]].
  - rewrite T2, T1, app_assoc; reflexivity.
  - rewrite replay_app, R1; exact R2.
  - rewrite only_fd_app, O1; rewrite D1 in O2; exact O2.
  - rewrite fired_app, F1, F2; reflexivity.
Qed.

Lemma cancel_steps w : steps w (snd (cancel w)) 0.
Proof.
  destruct (_active (this w)) eqn:A.
  - unfold steps; rewrite (io_cancel_active w A), A; cbn.
    split; [reflexivity|]. split; [reflexivity|].
    eexists; split; [reflexivity|]; cbn; rewrite Z.eqb_refl; repeat split.
  - rewrite (io_cancel_idle w A); apply steps_refl.
Qed.

Lemma resume_steps w : steps w (snd (resume w)) 0.
Proof.
  destruct (_active (this w)) eqn:A.
  - rewrite (io_resume_active w A); apply steps_refl.
  - unfold steps; rewrite (io_resume_idle w A), A; cbn.
    split; [reflexivity|]. split; [reflexivity|].
    eexists; split; [reflexivity|]; cbn; rewrite Z.eqb_refl; repeat split.
Qed.

Lemma run_steps c : forall w, steps w (snd (run c w)) 0.
Proof.
  induction c as [|k IH|k IH]; intro w.
  - apply steps_refl.
  - rewrite io_run_cancel.
    exact (steps_trans _ _ _ 0 0 (cancel_steps w) (IH _ _)).
  - rewrite io_run_resume.
    exact (steps_trans _ _ _ 0 0 (resume_steps w) (IH _ _)).
Qed.

Lemma invoke_steps w : steps w (snd (invoke w)) 1.
Proof.
  assert (I : invoke w = run (_callback (this w)) (at_invoke w)).
  { destruct w as [l [ev cb a]]; reflexivity. }
  rewrite I.
  assert (M0 : steps w (at_invoke w) 1).
  { split; [reflexivity|]. split; [reflexivity|].
    exists [UserCallback]; repeat split. }
  exact (steps_trans _ _ _ 1 0 M0 (run_steps _ _)).
Qed.

Lemma perform_steps acts :
  forall w, steps w (snd (perform acts w)) (invokes acts).
Proof.
  induction acts as [|a acts IH]; intro w.
  - apply steps_refl.
  - destruct a as [c|].
    + change (perform (Calls c :: acts) w)
        with (let (_, w') := run c w in perform acts w').
      pose proof (run_steps c w) as S1.
      destruct (run c w) as [u w1]; cbn [snd] in S1.
      exact (steps_trans _ _ _ 0 (invokes acts) S1 (IH w1)).
    + change (perform (Invoke :: acts) w)
        with (let (_, w') := invoke w in perform acts w').
      pose proof (invoke_steps w) as S1.
      destruct (invoke w) as [u w1]; cbn [snd] in S1.
      exact (steps_trans _ _ _ 1 (invokes acts) S1 (IH w1)).
Qed.

(** X5: when registration and flag agree, [cancel] followed by [resume] on
    an active watcher, and [resume] followed by [cancel] on an idle one,
    give back the watcher object exactly as it was (flag, libev watcher,
    descriptor, callback); the loop has received the matching stop and
    start call for the watcher's descriptor. *)
Theorem WriteWatcher_cancel_resume_round_trip w :
  consistent w ->
  (_active (this w) = true ->
   this (snd (resume (snd (cancel w)))) = this w
   /\ trace (_loop (snd (resume (snd (cancel w))))) =
        trace (_loop w)
        ++ [EvIoStop (fd (_watcher (this w)));
            EvIoStart (fd (_watcher (this w)))])
  /\ (_active (this w) = false ->
      this (snd (cancel (snd (resume w)))) = this w
      /\ trace (_loop (snd (cancel (snd (resume w))))) =
           trace (_loop w)
           ++ [EvIoStart (fd (_watcher (this w)));
               EvIoStop (fd (_watcher (this w)))]).
Proof.
  unfold consistent; intro C; split; intro A.
  - rewrite (io_cancel_active w A); cbn [snd].
    rewrite io_resume_idle by reflexivity.
    destruct w as [[n tr] [[r d] cb a]]; cbn in *; subst.
    rewrite <- app_assoc; split; reflexivity.
  - rewrite (io_resume_idle w A); cbn [snd].
    rewrite io_cancel_active by reflexivity.
    destruct w as [[n tr] [[r d] cb a]]; cbn in *; subst.
    rewrite <- app_assoc; split; reflexivity.
Qed.

(** X10: whatever calls the owner makes and however often the loop calls
    [invoke], the watcher keeps its descriptor and its callback, every
    start and stop call the loop receives names that descriptor, and the
    user callback has run once per [invoke]. *)
Theorem WriteWatcher_descriptor_kept (acts : list action) w :
  let w' := snd (perform acts w) in
  fd (_watcher (this w')) = fd (_watcher (this w))
  /\ _callback (this w') = _callback (this w)
  /\ exists evs,
       trace (_loop w') = trace (_loop w) ++ evs
       /\ only_fd (fd (_watcher (this w))) evs = true
       /\ fired evs = invokes acts.
Proof.
  cbv zeta.
  destruct (perform_steps acts w) as (D & C & evs & T & _ & O & F).
  split; [exact D|]. split; [exact C|].
  exists evs; repeat split; assumption.
Qed.

(** X8: over a watcher's life (construction, any interleaving of the
    owner's [cancel] and [resume] calls with calls of [invoke] by the
    loop, destruction) the loop receives as many stop calls as start
    calls, the user callback runs once per [invoke], and the watcher ends
    with its flag cleared; provided [initialize] leaves the loop's trace
    and the active flag alone. *)
Theorem WriteWatcher_life_balanced (init : Z -> M (World Timestamp) unit) :
  (forall d w, _active (this (snd (init d w))) = _active (this w)
               /\ trace (_loop (snd (init d w))) = trace (_loop w)) ->
  forall loop d callback raw acts,
    let w' := life init loop d callback raw acts in
    _active (this w') = false
    /\ exists evs,
         trace (_loop w') = trace loop ++ evs
         /\ starts evs = stops evs
         /\ fired evs = invokes acts.
Proof.
  intros Hinit loop d callback raw acts; cbv zeta.
  unfold life, construct_with, bind.
  match goal with |- context [init d ?w0] =>
    destruct (Hinit d w0) as [A T];
    destruct (init d w0) as [u w1]
  end.
  cbn in A, T; cbn [snd].
  assert (D : forall w, snd (destroy w) = snd (cancel w)).
  { intro w; unfold destroy, bind; destruct (cancel w); reflexivity. }
  rewrite D.
  pose proof (steps_trans _ _ _ _ _
                (steps_trans _ _ _ _ _ (resume_steps w1)
                   (perform_steps acts (snd (resume w1))))
                (cancel_steps _)) as (_ & _ & evs & Tr & R & _ & F).
  rewrite A in R.
  set (w3 := snd (cancel (snd (perform acts (snd (resume w1)))))) in *.
  assert (Z : _active (this w3) = false).
  { subst w3; set (w2 := snd (perform acts (snd (resume w1)))).
    destruct (_active (this w2)) eqn:A2.
    - rewrite (io_cancel_active w2 A2); reflexivity.
    - rewrite (io_cancel_idle w2 A2); exact A2. }
  split; [exact Z|].
  exists evs; split; [rewrite Tr, T; reflexivity|]. split.
  - rewrite Z in R. pose proof (replay_balance evs _ _ R) as B; lia.
  - rewrite F; lia.
Qed.

End WriteWatcherMore.

(** ** Synchronizer: sequences of calls *)

Section SynchronizerMore.
Context {Timestamp : Type}.
Import Synchronizer.
Implicit Types (w : World Timestamp) (c : SynchronizeCallback).

Lemma run_synchronize k w :
  run (CallSynchronize k) w = run (k true) (snd (synchronize w)).
Proof.
  destruct w as [l [ev cb]]; reflexivity.
Qed.

Lemma run_operator k w :
  run (CallOperator k) w = run (k true) (snd (call_operator w)).
Proof.
  destruct w as [l [ev cb]]; reflexivity.
Qed.

(** X11: in any sequence of [synchronize] and call-operator calls every
    call returns true, so the sequence follows its true branches; the loop
    receives one wake-up per call and nothing else, the callback is kept,
    the watcher is neither started nor stopped, and after the first call a
    wake-up is latched. *)
Theorem Synchronizer_calls_all_wake c :
  forall w,
    let w' := snd (run c w) in
    trace (_loop w') = trace (_loop w) ++ repeat EvAsyncSend (calls_made c)
    /\ ev_now (_loop w') = ev_now (_loop w)
    /\ active (_watcher (this w')) = active (_watcher (this w))
    /\ _callback (this w') = _callback (this w)
    /\ (calls_made c <> 0 -> sent (_watcher (this w')) = true).
Proof.
  assert (S1 : forall w,
             trace (_loop (snd (synchronize w)))
             = trace (_loop w) ++ [EvAsyncSend]
             /\ ev_now (_loop (snd (synchronize w))) = ev_now (_loop w)
             /\ active (_watcher (this (snd (synchronize w))))
                = active (_watcher (this w))
             /\ _callback (this (snd (synchronize w))) = _callback (this w)
             /\ sent (_watcher (this (snd (synchronize w)))) = true).
  { intros [l [ev cb]]; cbn; repeat split. }
  assert (K : forall c w, sent (_watcher (this w)) = true ->
                          sent (_watcher (this (snd (run c w)))) = true).
  { intro c0; induction c0 as [|k IH|k IH]; intros w H.
    - exact H.
    - rewrite run_synchronize; apply IH, S1.
    - rewrite run_operator; apply IH, (S1 w). }
  induction c as [|k IH|k IH]; intro w; cbv zeta.
  - cbn; rewrite app_nil_r; repeat split; intro H; exfalso; apply H;
      reflexivity.
  - rewrite run_synchronize.
    destruct (S1 w) as (T & N & A & C & L).
    destruct (IH true (snd (synchronize w))) as (T' & N' & A' & C' & _).
    cbn [calls_made repeat].
    rewrite T', T, N', N, A', A, C', C, <- app_assoc.
    repeat split. intros _; apply K, L.
  - rewrite run_operator.
    destruct (S1 w) as (T & N & A & C & L).
    destruct (IH true (snd (call_operator w))) as (T' & N' & A' & C' & _).
    cbn [calls_made repeat].
    unfold call_operator in *.
    rewrite T', T, N', N, A', A, C', C, <- app_assoc.
    repeat split. intros _; apply K, L.
Qed.

End SynchronizerMore.

(** ** The further properties at concrete worlds *)

(** X1 at the armed timer, set twice to 20 ticks at tick 100. *)
Lemma Timer_set_same_timeout_rearms_witness :
  tlt (tadd (ev_now (Timer._loop armed_timer)) 20%Z)
      (tadd (ev_now (Timer._loop armed_timer)) 20%Z) = false
  /\ trace (Timer._loop (snd (Timer.set 20%Z armed_timer))) =
       [EvTimerStart 50%Z 0%Z]
  /\ trace (Timer._loop
              (snd (Timer.set 20%Z (snd (Timer.set 20%Z armed_timer))))) =
       trace (Timer._loop (snd (Timer.set 20%Z armed_timer)))
       ++ [EvTimerStop; EvTimerStart 20%Z 0%Z].
Proof.
  split; [reflexivity|]. split; [reflexivity|].
  destruct (Timer_set_same_timeout_rearms (clock := Z_clock) armed_timer 20%Z
              ltac:(reflexivity)) as (_ & T & _).
  exact T.
Defined.

(** X2 at the armed timer, shortened to 30, 20 and 10 ticks. *)
Lemma Timer_shortenings_batched_witness :
  Timer._active (Timer.this armed_timer) = true
  /\ Timer.shortening (ev_now (Timer._loop armed_timer))
       (Timer._expire (Timer.this armed_timer)) [30%Z; 20%Z; 10%Z] = true
  /\ Timer._loop (snd (Timer.set_each [30%Z; 20%Z; 10%Z] armed_timer))
     = Timer._loop armed_timer
  /\ Timer._expire
       (Timer.this (snd (Timer.set_each [30%Z; 20%Z; 10%Z] armed_timer)))
     = 110%Z.
Proof.
  split; [reflexivity|]. split; [reflexivity|].
  destruct (Timer_shortenings_batched (clock := Z_clock)
              [30%Z; 20%Z; 10%Z] armed_timer
              ltac:(reflexivity) ltac:(reflexivity)) as (L & _ & _ & _ & E).
  split; [exact L | exact E].
Defined.

(** X3 at the armed timer and an owner who restarts it. *)
Lemma Timer_calls_frame_witness :
  Timer.no_set restart = true
  /\ Timer._expire (Timer.this (snd (Timer.run restart armed_timer)))
     = Timer._expire (Timer.this armed_timer)
  /\ Timer._callback (Timer.this (snd (Timer.run restart_and_set armed_timer)))
     = Timer._callback (Timer.this armed_timer).
Proof.
  destruct (Timer_calls_frame (clock := Z_clock) restart armed_timer)
    as (_ & _ & _ & E).
  destruct (Timer_calls_frame (clock := Z_clock) restart_and_set armed_timer)
    as (C & _).
  split; [reflexivity|]. split; [exact (E ltac:(reflexivity)) | exact C].
Defined.

(** X4 at the armed timer. *)
Lemma Timer_cancel_start_round_trip_witness :
  Timer._active (Timer.this armed_timer) = true
  /\ Timer._active
       (Timer.this (snd (Timer.start (snd (Timer.cancel armed_timer))))) = true
  /\ Timer._expire
       (Timer.this (snd (Timer.start (snd (Timer.cancel armed_timer)))))
     = Timer._expire (Timer.this armed_timer).
Proof.
  destruct (Timer_cancel_start_round_trip (Timestamp := Z) armed_timer
              ltac:(reflexivity)) as (_ & _ & A & _ & E & _).
  split; [reflexivity|]. split; [exact A | exact E].
Defined.

(** X6 at the due timer, whose callback cancels the timer. *)
Lemma Timer_callback_on_fire_witness :
  tle (Timer._expire (Timer.this due_timer))
      (ev_now (Timer._loop due_timer)) = true
  /\ Timer.invoke due_timer = (tt, Timer.at_fire due_timer).
Proof.
  destruct (Timer_callback_on_fire (clock := Z_clock) due_timer
              ltac:(reflexivity)) as (K & _).
  split; [reflexivity|].
  exact (K (fun _ => Timer.Done) eq_refl).
Defined.

(** X7 with the body of [initialize] as modelled above and an owner who
    restarts the timer and sets it. *)
Lemma Timer_life_balanced_witness :
  (forall (t : Z) (w : Timer.World Z),
      Timer._active (Timer.this (snd (Timer.initialize t w)))
      = Timer._active (Timer.this w)
      /\ trace (Timer._loop (snd (Timer.initialize t w)))
         = trace (Timer._loop w))
  /\ exists evs,
       trace (Timer._loop
                (Timer.life Timer.initialize loop100 50%Z cancelling
                   ({| Timer.active := true; Timer.at_ := 7%Z;
                       Timer.repeat_ := 7%Z |}, 7%Z) restart_and_set))
       = trace loop100 ++ evs
       /\ starts evs = stops evs
       /\ fired evs = 0.
Proof.
  assert (H : forall (t : Z) (w : Timer.World Z),
             Timer._active (Timer.this (snd (Timer.initialize t w)))
             = Timer._active (Timer.this w)
             /\ trace (Timer._loop (snd (Timer.initialize t w)))
                = trace (Timer._loop w)).
  { intros t w; split; reflexivity. }
  split; [exact H|].
  exact (proj2 (Timer_life_balanced (Timestamp := Z) Timer.initialize H
                  loop100 50%Z cancelling
                  ({| Timer.active := true; Timer.at_ := 7%Z;
                      Timer.repeat_ := 7%Z |}, 7%Z) restart_and_set)).
Defined.

(** X9 at the binary64 timer reported at 1.3 with expire 3.4. *)
Lemma Timer_invoke_rearm_absorbed_witness :
  Timer._active (Timer.this reported_early) = true
  /\ tle (Timer._expire (Timer.this reported_early))
         (ev_now (Timer._loop reported_early)) = false
  /\ tlt (tadd (ev_now (Timer._loop reported_early))
               (tsub (Timer._expire (Timer.this reported_early))
                     (ev_now (Timer._loop reported_early))))
         (Timer._expire (Timer.this reported_early)) = true
  /\ Timer.invoke reported_early =
       (tt, Timer.with_expire reported_early
              (tadd (ev_now (Timer._loop reported_early))
                    (tsub (Timer._expire (Timer.this reported_early))
                          (ev_now (Timer._loop reported_early))))).
Proof.
  split; [reflexivity|]. split; [reflexivity|]. split; [reflexivity|].
  exact (Timer_invoke_rearm_absorbed (clock := binary64_clock) reported_early
           ltac:(reflexivity) ltac:(reflexivity) ltac:(reflexivity)).
Defined.

(** X5 at the write watcher on descriptor 4. *)
Lemma WriteWatcher_cancel_resume_round_trip_witness :
  WriteWatcher.consistent writer4
  /\ WriteWatcher._active (WriteWatcher.this writer4) = true
  /\ WriteWatcher.this
       (snd (WriteWatcher.resume (snd (WriteWatcher.cancel writer4))))
     = WriteWatcher.this writer4.
Proof.
  destruct (WriteWatcher_cancel_resume_round_trip writer4 ltac:(reflexivity))
    as (R & _).
  split; [reflexivity|]. split; [reflexivity|].
  exact (proj1 (R ltac:(reflexivity))).
Defined.

(** X8 with the body of [initialize] as modelled above, for a watcher whose
    descriptor is reported twice. *)
Lemma WriteWatcher_life_balanced_witness :
  (forall (d : Z) (w : WriteWatcher.World Z),
      WriteWatcher._active (WriteWatcher.this (snd (WriteWatcher.initialize d w)))
      = WriteWatcher._active (WriteWatcher.this w)
      /\ trace (WriteWatcher._loop (snd (WriteWatcher.initialize d w)))
         = trace (WriteWatcher._loop w))
  /\ exists evs,
       trace (WriteWatcher._loop
                (WriteWatcher.life WriteWatcher.initialize loop100 4%Z
                   WriteWatcher.Done
                   {| WriteWatcher.active := true; WriteWatcher.fd := 9%Z |}
                   reported_twice))
       = trace loop100 ++ evs
       /\ starts evs = stops evs
       /\ fired evs = 2.
Proof.
  assert (H : forall (d : Z) (w : WriteWatcher.World Z),
             WriteWatcher._active
               (WriteWatcher.this (snd (WriteWatcher.initialize d w)))
             = WriteWatcher._active (WriteWatcher.this w)
             /\ trace (WriteWatcher._loop (snd (WriteWatcher.initialize d w)))
                = trace (WriteWatcher._loop w)).
  { intros d w; split; reflexivity. }
  split; [exact H|].
  exact (proj2 (WriteWatcher_life_balanced (Timestamp := Z)
                  WriteWatcher.initialize H loop100 4%Z WriteWatcher.Done
                  {| WriteWatcher.active := true; WriteWatcher.fd := 9%Z |}
                  reported_twice)).
Defined.
